(** * Verification of [app/routes.py]: ticker search and the analyze handler

    The development embeds the two view functions of [src/app/routes.py],
    [search_ticker] and [analyze], as executable Rocq functions and proves
    the properties of the specification about them.

    Modelling conventions.
    - Python [str] values are Rocq [string]s; the model covers ASCII text
      (on it [str.upper], [str.split], [int] and [datetime.strptime] are
      modelled character for character; code points above 127 are outside
      the model).
    - Python exceptions are values of [exn]; code that may raise returns a
      [result].  A [try ... except] is a function on [result]s.
    - [request.form] and [request.args] are association lists (a Flask
      MultiDict keeps duplicates and [get] answers the first value).
    - [TICKERS] and [TICKER_DICT] come from [app.utils.tickers], which is
      not part of the sources at hand: they are parameters.  An entry of
      [TICKERS] is a Python dict, here a [gmap string string], so that a
      missing key raises [KeyError] as subscripting does.
    - [create_combined_analysis] and the chart's [to_html] are external
      collaborators, parameters returning a [result]. *)

From Stdlib Require Import ZArith Ascii String List Sorted Permutation Lia.
From stdpp Require Import gmap strings list.

(** ** Exceptions and results *)

Inductive exn : Type :=
| ValueError (msg : string)
| IndexError (msg : string)
| KeyError (key : string)
| UnboundLocalError (var : string)
| OtherException (msg : string).

(** [str(e)].  For a [KeyError] Python prints the [repr] of the key. *)
Definition exn_str (e : exn) : string :=
  match e with
  | ValueError msg => msg
  | IndexError msg => msg
  | KeyError key => "'" +:+ key +:+ "'"
  | UnboundLocalError var =>
      "cannot access local variable '" +:+ var
        +:+ "' where it is not associated with a value"
  | OtherException msg => msg
  end.

Inductive result (A : Type) : Type :=
| Ok (a : A)
| Raise (e : exn).
Arguments Ok {A} a.
Arguments Raise {A} e.

(** Sequencing: [x ← m; k] runs [m] and, unless it raised, goes on with
    [k]; the first exception raised is the one that escapes. *)
#[global] Instance result_ret : MRet result := fun A a => Ok a.
#[global] Instance result_bind : MBind result := fun A B k m =>
  match m with
  | Ok a => k a
  | Raise e => Raise e
  end.

(** [try: m  except ValueError: raise e'] *)
Definition except_ValueError {A : Type} (m : result A) (e' : exn) : result A :=
  match m with
  | Raise (ValueError _) => Raise e'
  | other => other
  end.

(** [try: m  except Exception as e: h e] *)
Definition except_Exception {A : Type} (m : result A) (h : exn -> result A)
  : result A :=
  match m with
  | Ok a => Ok a
  | Raise e => h e
  end.

(** What a view function does for its caller (the framework): it returns
    a value or lets an exception escape. *)
Inductive outcome (A : Type) : Type :=
| Returns (a : A)
| Propagates (e : exn).
Arguments Returns {A} a.
Arguments Propagates {A} e.

(** ** Strings as Python has them (ASCII) *)

Definition code (c : ascii) : nat := nat_of_ascii c.

(** [str.upper] on one character. *)
Definition upper_char (c : ascii) : ascii :=
  if (97 <=? code c)%nat && (code c <=? 122)%nat
  then ascii_of_nat (code c - 32) else c.

Fixpoint upper (s : string) : string :=
  match s with
  | EmptyString => EmptyString
  | String c s' => String (upper_char c) (upper s')
  end.

(** [str.isspace] on one character: codes 9-13, 28-31 and 32. *)
Definition isspace (c : ascii) : bool :=
  ((9 <=? code c)%nat && (code c <=? 13)%nat)
  || ((28 <=? code c)%nat && (code c <=? 32)%nat).

(** Truth value of a string: [if s:] holds for the non-empty ones. *)
Definition truthy (s : string) : bool :=
  match s with
  | EmptyString => false
  | String _ _ => true
  end.

(** [s.split()]: the maximal runs of non-whitespace characters, in order.
    [cur] is the run being read, [None] between runs. *)
Fixpoint split_from (cur : option string) (s : string) : list string :=
  match s with
  | EmptyString =>
      match cur with
      | Some w => [w]
      | None => []
      end
  | String c s' =>
      if isspace c then
        match cur with
        | Some w => w :: split_from None s'
        | None => split_from None s'
        end
      else
        match cur with
        | Some w => split_from (Some (w +:+ String c EmptyString)) s'
        | None => split_from (Some (String c EmptyString)) s'
        end
  end.

Definition split (s : string) : list string := split_from None s.

(** [s.startswith(p)] *)
Fixpoint startswith (s p : string) {struct p} : bool :=
  match p with
  | EmptyString => true
  | String a p' =>
      match s with
      | EmptyString => false
      | String b s' => Ascii.eqb a b && startswith s' p'
      end
  end.

(** [q in s] for strings: [q] occurs in [s] as a contiguous segment. *)
Fixpoint str_in (q s : string) : bool :=
  startswith s q
  || match s with
     | EmptyString => false
     | String _ s' => str_in q s'
     end.

(** [l[0]] *)
Definition getitem0 {A : Type} (l : list A) : result A :=
  match l with
  | [] => Raise (IndexError "list index out of range")
  | x :: _ => Ok x
  end.

(** [d[key]] *)
Definition getitem (d : gmap string string) (key : string) : result string :=
  match d !! key with
  | Some v => Ok v
  | None => Raise (KeyError key)
  end.

(** A MultiDict: [get key] answers the first value stored under [key]. *)
Definition multidict : Type := list (string * string).

Fixpoint md_get (key : string) (d : multidict) : option string :=
  match d with
  | [] => None
  | (k, v) :: d' => if String.eqb k key then Some v else md_get key d'
  end.

(** [d.get(key, default)] with a string default. *)
Definition md_get_default (key default : string) (d : multidict) : string :=
  match md_get key d with
  | Some v => v
  | None => default
  end.

(** ** [int(s)] on a string

    Base ten: optional whitespace (codes 9-13 and 32, a smaller set than
    [str.isspace]), an optional sign, then digits in which single
    underscores may separate two digits, then optional whitespace.  The
    interpreter's configurable limit on the number of digits is left out. *)

Definition is_digit (c : ascii) : bool :=
  (48 <=? code c)%nat && (code c <=? 57)%nat.

Definition digit_val (c : ascii) : Z := Z.of_nat (code c - 48).

Definition int_space (c : ascii) : bool :=
  ((9 <=? code c)%nat && (code c <=? 13)%nat) || (code c =? 32)%nat.

Fixpoint all_int_space (s : string) : bool :=
  match s with
  | EmptyString => true
  | String c s' => int_space c && all_int_space s'
  end.

Fixpoint lstrip_int (s : string) : string :=
  match s with
  | EmptyString => EmptyString
  | String c s' => if int_space c then lstrip_int s' else s
  end.

(** The digits after a first digit, whose value so far is [acc]. *)
Fixpoint int_digits (acc : Z) (s : string) : option Z :=
  match s with
  | EmptyString => Some acc
  | String c s' =>
      if is_digit c then int_digits (10 * acc + digit_val c) s'
      else if Ascii.eqb c "_" then
        match s' with
        | String d s'' =>
            if is_digit d then int_digits (10 * acc + digit_val d) s''
            else None
        | EmptyString => None
        end
      else if all_int_space s then Some acc
      else None
  end.

Definition int_unsigned (s : string) : option Z :=
  match s with
  | String d s' => if is_digit d then int_digits (digit_val d) s' else None
  | EmptyString => None
  end.

Definition int_literal (s : string) : option Z :=
  match lstrip_int s with
  | String "+" r => int_unsigned r
  | String "-" r => Z.opp <$> int_unsigned r
  | r => int_unsigned r
  end.

Definition py_int (s : string) : result Z :=
  match int_literal s with
  | Some n => Ok n
  | None => Raise (ValueError ("invalid literal for int() with base 10: " +:+ s))
  end.

(** ** [datetime.strptime(s, '%Y-%m-%d')]

    The library compiles the format to the regular expression
    [(\d\d\d\d)-(1[0-2]|0[1-9]|[1-9])-(3[0-1]|[1-2]\d|0[1-9]|[1-9]| [1-9])],
    matches it at the start of [s] (first alternative that lets the whole
    expression match), refuses left-over text, and then builds the date,
    which refuses year 0 and days the month does not have. *)

Definition in_range (lo hi : nat) (c : ascii) : bool :=
  (lo <=? code c)%nat && (code c <=? hi)%nat.

(** One character in the code range [lo..hi], as its decimal value when it
    is a digit. *)
Definition re_char (lo hi : nat) (s : string) : option (Z * string) :=
  match s with
  | String c s' => if in_range lo hi c then Some (digit_val c, s') else None
  | EmptyString => None
  end.

(** Two characters in sequence, read as a two-digit number. *)
Definition re_two (lo1 hi1 lo2 hi2 : nat) (s : string) : list (Z * string) :=
  match re_char lo1 hi1 s with
  | Some (a, s1) =>
      match re_char lo2 hi2 s1 with
      | Some (b, s2) => [((10 * a + b)%Z, s2)]
      | None => []
      end
  | None => []
  end.

Definition re_one (lo hi : nat) (s : string) : list (Z * string) :=
  match re_char lo hi s with
  | Some r => [r]
  | None => []
  end.

(** A space and then one character in [lo..hi]. *)
Definition re_space_one (lo hi : nat) (s : string) : list (Z * string) :=
  match s with
  | String " " s' => re_one lo hi s'
  | _ => []
  end.

Definition re_lit (c : ascii) (s : string) : option string :=
  match s with
  | String c' s' => if Ascii.eqb c c' then Some s' else None
  | EmptyString => None
  end.

(** [\d\d\d\d] *)
Definition re_Y (s : string) : option (Z * string) :=
  match re_char 48 57 s with
  | Some (a, s1) =>
  match re_char 48 57 s1 with
  | Some (b, s2) =>
  match re_char 48 57 s2 with
  | Some (c, s3) =>
  match re_char 48 57 s3 with
  | Some (d, s4) => Some ((1000 * a + 100 * b + 10 * c + d)%Z, s4)
  | None => None
  end
  | None => None
  end
  | None => None
  end
  | None => None
  end.

(** [1[0-2]|0[1-9]|[1-9]]: the ways to match, in order of preference. *)
Definition re_m (s : string) : list (Z * string) :=
  re_two 49 49 48 50 s ++ re_two 48 48 49 57 s ++ re_one 49 57 s.

(** [3[0-1]|[1-2]\d|0[1-9]|[1-9]| [1-9]] *)
Definition re_d (s : string) : list (Z * string) :=
  re_two 51 51 48 49 s ++ re_two 49 50 48 57 s ++ re_two 48 48 49 57 s
  ++ re_one 49 57 s ++ re_space_one 49 57 s.

(** The first way of matching the month after which ["-"] and a day match
    as well. *)
Fixpoint re_after_month (y : Z) (ms : list (Z * string))
  : option (Z * Z * Z * string) :=
  match ms with
  | [] => None
  | (m, s3) :: ms' =>
      match re_lit "-" s3 with
      | Some s4 =>
          match re_d s4 with
          | (d, rest) :: _ => Some (y, m, d, rest)
          | [] => re_after_month y ms'
          end
      | None => re_after_month y ms'
      end
  end.

Definition re_match (s : string) : option (Z * Z * Z * string) :=
  match re_Y s with
  | Some (y, s1) =>
      match re_lit "-" s1 with
      | Some s2 => re_after_month y (re_m s2)
      | None => None
      end
  | None => None
  end.

Definition is_leap (y : Z) : bool :=
  ((y mod 4 =? 0) && negb (y mod 100 =? 0) || (y mod 400 =? 0))%Z.

Definition days_in_month (y m : Z) : Z :=
  if (m =? 2)%Z then (if is_leap y then 29 else 28)%Z
  else if ((m =? 4) || (m =? 6) || (m =? 9) || (m =? 11))%Z then 30%Z
  else 31%Z.

Definition strptime (s : string) : result (Z * Z * Z) :=
  match re_match s with
  | None =>
      Raise (ValueError ("time data '" +:+ s
                         +:+ "' does not match format '%Y-%m-%d'"))
  | Some (y, m, d, rest) =>
      if truthy rest then
        Raise (ValueError ("unconverted data remains: " +:+ rest))
      else if (y <? 1)%Z then Raise (ValueError "year 0 is out of range")
      else if (days_in_month y m <? d)%Z then
        Raise (ValueError "day is out of range for month")
      else Ok (y, m, d)
  end.

(** ** Responses

    [analyze] answers either the object built by [make_response], whose
    status is 200 and whose Content-Type header it sets, or a pair of a body
    and a status code. *)

Record response : Type := mk_response {
  body : string;
  status : Z;
  content_type : option string
}.

Definition make_response (html_content : string) : response :=
  {| body := html_content; status := 200; content_type := None |}.

Definition set_content_type (r : response) (v : string) : response :=
  {| body := body r; status := status r; content_type := Some v |}.

(** [return text, code] *)
Definition body_with_status (text : string) (code : Z) : response :=
  {| body := text; status := code; content_type := None |}.

Definition nl : string := String (ascii_of_nat 10) EmptyString.
Definition dq : string := String (ascii_of_nat 34) EmptyString.

(** The text of the error page before and after the message (the f-string
    of lines 146-165, its doubled braces read as single ones). *)
Definition error_html_head : string :=
  String.concat nl
    [ "";
      "        <html>";
      "            <head>";
      "                <title>Error</title>";
      "                <style>";
      "                    body { font-family: Arial, sans-serif; padding: 2rem; }";
      "                    .error { color: #dc3545; padding: 1rem; background-color: #f8d7da; ";
      "                             border: 1px solid #f5c6cb; border-radius: 3px; }";
      "                    .back-link { margin-top: 1rem; display: block; }";
      "                </style>";
      "            </head>";
      "            <body>";
      ("                <div class=" +:+ dq +:+ "error" +:+ dq +:+ ">");
      "                    <h2>Analysis Error</h2>";
      "                    <p>" ].

Definition error_html_tail : string :=
  String.concat nl
    [ "</p>";
      "                </div>";
      ("                <a href=" +:+ dq +:+ "javascript:window.close();" +:+ dq +:+ " class=" +:+ dq +:+ "back-link" +:+ dq +:+ ">Close Window</a>");
      "            </body>";
      "        </html>";
      "        " ].

Definition error_html (error_msg : string) : string :=
  error_html_head +:+ error_msg +:+ error_html_tail.

(** ** Search results and their order *)

Record SearchResult : Type := mk_result {
  symbol : string;
  name : string;
  source : string
}.

(** The sort key of lines 60-64: a tuple of a bool, an int and a str. *)
Definition sort_key (query : string) (x : SearchResult) : bool * nat * string :=
  (negb (String.eqb (symbol x) query), String.length (symbol x), symbol x).

(** Tuples compare lexicographically; [False < True]; strings compare by
    character codes. *)
Definition key_leb (k1 k2 : bool * nat * string) : bool :=
  let '(b1, n1, s1) := k1 in
  let '(b2, n2, s2) := k2 in
  if Bool.eqb b1 b2 then
    if (n1 =? n2)%nat then String.leb s1 s2 else (n1 <? n2)%nat
  else negb b1.

(** [list.sort(key=...)] is stable: insertion from the right, an element
    going before the first one whose key is not smaller. *)
Fixpoint insert_by_key (query : string) (x : SearchResult)
  (l : list SearchResult) : list SearchResult :=
  match l with
  | [] => [x]
  | y :: l' =>
      if key_leb (sort_key query x) (sort_key query y) then x :: y :: l'
      else y :: insert_by_key query x l'
  end.

Fixpoint sort_results (query : string) (l : list SearchResult)
  : list SearchResult :=
  match l with
  | [] => []
  | x :: l' => insert_by_key query x (sort_results query l')
  end.

Inductive json_response : Type :=
| jsonify (l : list SearchResult).

(** What the framework sees of a view function's body. *)
Definition run {A : Type} (m : result A) : outcome A :=
  match m with
  | Ok a => Returns a
  | Raise e => Propagates e
  end.

(** Reading a local variable that may not have been assigned yet. *)
Definition read_local (var : string) (v : option string) : result string :=
  match v with
  | Some x => Ok x
  | None => Raise (UnboundLocalError var)
  end.

(** The failures of the validation pipeline, by the names the
    specification gives them. *)
Definition MissingSymbol : exn := ValueError "Ticker symbol is required".
Definition InvalidDateFormat : exn :=
  ValueError "Invalid date format. Please use YYYY-MM-DD format".
Definition InvalidLookback : exn := ValueError "Invalid lookback days value".
Definition InvalidCrossover : exn := ValueError "Invalid crossover days value".
Definition AnalysisFailure (e : exn) : exn :=
  ValueError ("Analysis failed: " +:+ exn_str e).

(** ** The view functions *)

Section Routes.

(** [app.utils.tickers] *)
Variable TICKERS : list (gmap string string).
Variable TICKER_DICT : gmap string string.

(** [app.utils.analysis] and the chart object it returns *)
Variable figure : Type.
Variable create_combined_analysis :
  string -> option string -> Z -> Z -> result figure.
Variable to_html : figure -> result string.

(** *** [search_ticker] *)

(** The condition of the comprehension, lines 52-54:
    [(query in symbol.upper() or query in name.upper()) and symbol != query],
    with Python's short-circuit evaluation. *)
Definition partial_cond (query : string) (ticker : gmap string string)
  : result bool :=
  sym ← getitem ticker "symbol";
  hit ← (if str_in query (upper sym) then Ok true
         else nm ← getitem ticker "name"; Ok (str_in query (upper nm)));
  if hit : bool then
    sym' ← getitem ticker "symbol"; Ok (negb (String.eqb sym' query))
  else Ok false.

(** The comprehension of lines 49-55 over a list of entries. *)
Fixpoint partial_matches (query : string)
  (tickers : list (gmap string string)) : result (list SearchResult) :=
  match tickers with
  | [] => Ok []
  | ticker :: rest =>
      keep ← partial_cond query ticker;
      if keep : bool then
        sym ← getitem ticker "symbol";
        nm ← getitem ticker "name";
        tl ← partial_matches query rest;
        Ok (mk_result sym nm "predefined" :: tl)
      else partial_matches query rest
  end.

(** The body of the [try], lines 35-66. *)
Definition search_try (query : string) : result json_response :=
  let search_results : list SearchResult := [] in
  let search_results :=
    match TICKER_DICT !! query with
    | Some nm => search_results ++ [mk_result query nm "predefined"]
    | None => search_results
    end in
  search_results ←
    (if (length search_results <? 5)%nat then
       partial ← partial_matches query TICKERS;
       Ok (search_results ++ take (5 - length search_results) partial)
     else Ok search_results);
  let search_results := sort_results query search_results in
  Ok (jsonify (take 5 search_results)).

Definition search_ticker (args : multidict) : outcome json_response :=
  run (
    let query := upper (md_get_default "query" "" args) in
    if negb (truthy query) || (String.length query <? 1)%nat then
      Ok (jsonify [])
    else
      except_Exception (search_try query) (fun e => Ok (jsonify []))).

(** *** [analyze] *)

(** Lines 82-88: the symbol handed to the analysis. *)
Definition matching_tickers (ticker_input : string)
  : list (gmap string string) -> result (list string) :=
  fix go (tickers : list (gmap string string)) : result (list string) :=
    match tickers with
    | [] => Ok []
    | t :: rest =>
        sym ← getitem t "symbol";
        if startswith sym ticker_input then
          sym' ← getitem t "symbol"; tl ← go rest; Ok (sym' :: tl)
        else go rest
    end.

Definition resolve (ticker_input : string) : result string :=
  match TICKER_DICT !! ticker_input with
  | Some _ => Ok ticker_input
  | None =>
      matching ← matching_tickers ticker_input TICKERS;
      match matching with
      | first :: _ => Ok first
      | [] => Ok ticker_input
      end
  end.

(** Lines 91-100.  [parse] is [datetime.strptime] with the fixed format;
    the value handed on is the field's text, or [None]. *)
Definition end_date_stage_with (parse : string -> result (Z * Z * Z))
  (form : multidict) : result (option string) :=
  match md_get "end_date" form with
  | Some end_date =>
      if truthy end_date then
        _ ← except_ValueError (parse end_date) InvalidDateFormat;
        Ok (Some end_date)
      else Ok None
  | None => Ok None
  end.

Definition end_date_stage : multidict -> result (option string) :=
  end_date_stage_with strptime.

(** [int(request.form.get(field, default))]: the default is already an
    [int]. *)
Definition int_field (field : string) (default : Z) (form : multidict)
  : result Z :=
  match md_get field form with
  | Some text => py_int text
  | None => Ok default
  end.

(** Lines 102-108. *)
Definition lookback_stage (form : multidict) : result Z :=
  except_ValueError
    (lookback_days ← int_field "lookback_days" 365 form;
     if ((lookback_days <? 30) || (lookback_days >? 1825))%Z then
       Raise (ValueError "Lookback days must be between 30 and 1825")
     else Ok lookback_days)
    InvalidLookback.

(** Lines 110-116. *)
Definition crossover_stage (form : multidict) : result Z :=
  except_ValueError
    (crossover_days ← int_field "crossover_days" 180 form;
     if ((crossover_days <? 30) || (crossover_days >? 365))%Z then
       Raise (ValueError "Crossover days must be between 30 and 365")
     else Ok crossover_days)
    InvalidCrossover.

(** Lines 119-141. *)
Definition perform_analysis (ticker : string) (end_date : option string)
  (lookback_days crossover_days : Z) : result response :=
  except_Exception
    (fig ← create_combined_analysis ticker end_date lookback_days
             crossover_days;
     html_content ← to_html fig;
     let response := make_response html_content in
     Ok (set_content_type response "text/html"))
    (fun analysis_error => Raise (AnalysisFailure analysis_error)).

(** The body of the outer [try], lines 75-141, together with the binding
    of the local [ticker_input] when the body is left: [None] while line
    75 has not completed its assignment. *)
Definition analyze_try (form : multidict) : option string * result response :=
  match getitem0 (split (md_get_default "ticker" "" form)) with
  | Raise e => (None, Raise e)
  | Ok token =>
      let ticker_input := upper token in
      (Some ticker_input,
       if negb (truthy ticker_input) then Raise MissingSymbol
       else
         ticker ← resolve ticker_input;
         end_date ← end_date_stage form;
         lookback_days ← lookback_stage form;
         crossover_days ← crossover_stage form;
         perform_analysis ticker end_date lookback_days crossover_days)
  end.

(** The handler of the outer [except Exception as e], lines 143-166. *)
Definition analyze_except (ticker_input : option string) (e : exn)
  : result response :=
  ticker_input ← read_local "ticker_input" ticker_input;
  let error_msg := "Error analyzing " +:+ ticker_input +:+ ": " +:+ exn_str e in
  Ok (body_with_status (error_html error_msg) 500).

Definition analyze (form : multidict) : outcome response :=
  run (let '(ticker_input, r) := analyze_try form in
       except_Exception r (analyze_except ticker_input)).

End Routes.

(** ** The stages as the specification words them

    A numeric stage: the default when the field is absent, the parsed value
    when it lies in the closed range from [lo] to [hi], the stage's failure
    otherwise. *)
Definition bounded_int (lo hi default : Z) (failure : exn)
  (field : option string) : result Z :=
  match field with
  | None => Ok default
  | Some text =>
      match int_literal text with
      | Some v => if ((lo <=? v) && (v <=? hi))%Z then Ok v else Raise failure
      | None => Raise failure
      end
  end.

(** The symbols of the catalog, in its order. *)
Definition catalog_symbols (tickers : list (gmap string string))
  : list string :=
  omap (fun t : gmap string string => t !! "symbol") tickers.

(** Every entry of the catalog carries a symbol. *)
Definition has_symbols (tickers : list (gmap string string)) : Prop :=
  Forall (fun t : gmap string string => is_Some (t !! "symbol")) tickers.

(** A string in canonical form is its own uppercase. *)
Definition canonical (s : string) : Prop := upper s = s.

(** [s] starts with [p]. *)
Definition starts_with (p s : string) : Prop := exists r, s = p +:+ r.

(** The ranking of the specification: the exact match of the query first,
    then the shorter symbol, then the symbol that comes first in
    lexicographic order. *)
Definition ranked_before (query : string) (x y : SearchResult) : Prop :=
  (symbol x = query /\ symbol y <> query)
  \/ ((symbol x = query <-> symbol y = query)
      /\ (String.length (symbol x) < String.length (symbol y)
          \/ (String.length (symbol x) = String.length (symbol y)
              /\ String.le (symbol x) (symbol y)))).

(** [q] occurs in [s] when letter case is ignored: a segment of [s] equals
    [q] up to case. *)
Definition ci_contains (q s : string) : Prop :=
  exists pre mid post, s = pre +:+ mid +:+ post /\ upper mid = upper q.

(** The entries the partial-match scan keeps: the query occurs in the
    symbol or in the display name, case ignored, and the symbol is not the
    query itself. *)
Definition entry_matches (query : string) (t : gmap string string) : bool :=
  match t !! "symbol" with
  | Some sym =>
      negb (String.eqb sym query)
      && (str_in query (upper sym)
          || match t !! "name" with
             | Some nm => str_in query (upper nm)
             | None => false
             end)
  | None => false
  end.

(** The search result built from a catalog entry. *)
Definition result_of_entry (t : gmap string string) (r : SearchResult) : Prop :=
  t !! "symbol" = Some (symbol r) /\ t !! "name" = Some (name r)
  /\ source r = "predefined".

(** Every entry of the catalog carries a symbol and a display name. *)
Definition complete_entries (tickers : list (gmap string string)) : Prop :=
  Forall (fun t : gmap string string =>
            is_Some (t !! "symbol") /\ is_Some (t !! "name")) tickers.

(** Step 1 of the search: the exact match of the query, if the catalog has
    one. *)
Definition exact_result (TICKER_DICT : gmap string string) (query : string)
  : list SearchResult :=
  match TICKER_DICT !! query with
  | Some nm => [mk_result query nm "predefined"]
  | None => []
  end.

(** ** A sample catalog

    Three entries and collaborators that always succeed, for the concrete
    instances of the theorems. *)
Definition sample_entry (sym nm : string) : gmap string string :=
  {[ "symbol" := sym; "name" := nm ]}.

Definition sample_tickers : list (gmap string string) :=
  [ sample_entry "AAPL" "Apple Inc.";
    sample_entry "MSFT" "Microsoft Corporation";
    sample_entry "GOOGL" "Alphabet Inc." ].

Definition sample_dict : gmap string string :=
  {[ "AAPL" := "Apple Inc."; "MSFT" := "Microsoft Corporation";
     "GOOGL" := "Alphabet Inc." ]}.

Definition sample_analysis (ticker : string) (end_date : option string)
  (lookback_days crossover_days : Z) : result unit := Ok tt.

Definition sample_to_html (fig : unit) : result string := Ok "<chart/>".

(** A catalog with more matches than a search returns, and one with an
    entry that lacks its symbol. *)
Definition wide_tickers : list (gmap string string) :=
  [ sample_entry "AAPL" "Apple Inc.";
    sample_entry "MSFT" "Microsoft Corporation";
    sample_entry "AA" "Alcoa Corporation";
    sample_entry "AAL" "American Airlines Group";
    sample_entry "GOOGL" "Alphabet Inc.";
    sample_entry "A" "Agilent Technologies";
    sample_entry "AMZN" "Amazon.com Inc." ].

Definition wide_dict : gmap string string :=
  {[ "AAPL" := "Apple Inc."; "MSFT" := "Microsoft Corporation";
     "AA" := "Alcoa Corporation"; "AAL" := "American Airlines Group";
     "GOOGL" := "Alphabet Inc."; "A" := "Agilent Technologies";
     "AMZN" := "Amazon.com Inc." ]}.

Definition broken_tickers : list (gmap string string) :=
  [ sample_entry "AAPL" "Apple Inc."; {[ "name" := "No symbol here" ]} ].

(** What a search for [a] answers on [wide_tickers]. *)
Definition wide_answer : list SearchResult :=
  [ mk_result "A" "Agilent Technologies" "predefined";
    mk_result "AA" "Alcoa Corporation" "predefined";
    mk_result "AAL" "American Airlines Group" "predefined";
    mk_result "AAPL" "Apple Inc." "predefined";
    mk_result "MSFT" "Microsoft Corporation" "predefined" ].

(** ** The index page

    [index] reads the clock twice, formats the first reading with
    [strftime('%Y-%m-%d')] and hands both to the template.  The formatting
    is modelled for the years 1000 to 9999, on which all platforms print
    four digits. *)

Record datetime : Type := mk_datetime {
  dt_year : Z;
  dt_month : Z;
  dt_day : Z;
  dt_hour : Z;
  dt_minute : Z;
  dt_second : Z;
  dt_microsecond : Z
}.

Definition digit_char (n : Z) : ascii := ascii_of_nat (48 + Z.to_nat n).

(** [%m] and [%d]: two digits. *)
Definition pad2 (n : Z) : string :=
  String (digit_char (n / 10)) (String (digit_char (n mod 10)) EmptyString).

(** [%Y]: four digits. *)
Definition pad4 (n : Z) : string :=
  String (digit_char (n / 1000))
    (String (digit_char ((n / 100) mod 10)) (pad2 (n mod 100))).

Definition strftime (d : datetime) : string :=
  pad4 (dt_year d) +:+ "-" +:+ pad2 (dt_month d) +:+ "-" +:+ pad2 (dt_day d).

(** A date of the calendar in the years the formatting covers. *)
Definition calendar_date (d : datetime) : Prop :=
  (1000 <= dt_year d <= 9999)%Z /\ (1 <= dt_month d <= 12)%Z
  /\ (1 <= dt_day d <= days_in_month (dt_year d) (dt_month d))%Z.

Section Index.

(** [render_template(name, now=..., max_date=...)] *)
Variable page : Type.
Variable render_template : string -> datetime -> string -> result page.

(** Lines 24-26; [now1] and [now2] are the two readings of the clock. *)
Definition index (now1 now2 : datetime) : outcome page :=
  run (let today := strftime now1 in
       render_template "index.html" now2 today).

End Index.

(** ** Vocabulary of the properties *)

(** The response of the handler of [analyze] for the symbol [ticker_input]
    and the failure [e]. *)
Definition error_response (ticker_input : string) (e : exn) : response :=
  body_with_status
    (error_html ("Error analyzing " +:+ ticker_input +:+ ": " +:+ exn_str e))
    500.

(** The response of [analyze] for a completed analysis. *)
Definition chart_response (html_content : string) : response :=
  {| body := html_content; status := 200; content_type := Some "text/html" |}.

(** Arguments a validated request hands to the analysis: a non-empty
    symbol, no end date or a text the parser accepts, and windows within
    their ranges. *)
Definition validated_call (ticker : string) (end_date : option string)
  (lookback_days crossover_days : Z) : Prop :=
  truthy ticker = true
  /\ (end_date = None
      \/ exists text date, end_date = Some text /\ strptime text = Ok date)
  /\ (30 <= lookback_days <= 1825)%Z
  /\ (30 <= crossover_days <= 365)%Z.

(** No character of [s] is whitespace. *)
Definition no_whitespace (s : string) : Prop :=
  forall c, In c (list_ascii_of_string s) -> isspace c = false.

(** A collaborator that refuses every call validation would not have let
    through, for the concrete instances. *)
Definition guarded_analysis (ticker : string) (end_date : option string)
  (lookback_days crossover_days : Z) : result unit :=
  if (truthy ticker && (30 <=? lookback_days) && (lookback_days <=? 1825)
      && (30 <=? crossover_days) && (crossover_days <=? 365))%Z
  then Ok tt
  else Raise (OtherException "called with unvalidated arguments").

(** A reading of the clock, for the concrete instances. *)
Definition sample_now : datetime :=
  {| dt_year := 2026; dt_month := 11; dt_day := 3; dt_hour := 17;
     dt_minute := 25; dt_second := 0; dt_microsecond := 0 |}.

(** * Properties *)

(** ** The library models on sample inputs *)

Example strptime_samples :
  strptime "2024-1-5" = Ok (2024, 1, 5)%Z
  /\ strptime "2024-01- 5" = Ok (2024, 1, 5)%Z
  /\ strptime "2024-02-29" = Ok (2024, 2, 29)%Z
  /\ strptime "2023-02-29" = Raise (ValueError "day is out of range for month")
  /\ strptime "0000-01-01" = Raise (ValueError "year 0 is out of range")
  /\ strptime "2024-01-311" = Raise (ValueError "unconverted data remains: 1")
  /\ strptime "1900-02-29" = Raise (ValueError "day is out of range for month")
  /\ strptime "2024-12-31" = Ok (2024, 12, 31)%Z.
Proof. repeat split; vm_compute; reflexivity. Qed.

Example py_int_samples :
  int_literal " 42 " = Some 42%Z /\ int_literal "+42" = Some 42%Z
  /\ int_literal "-5" = Some (-5)%Z /\ int_literal "1_000" = Some 1000%Z
  /\ int_literal "_1" = None /\ int_literal "1__0" = None
  /\ int_literal "1_" = None /\ int_literal "007" = Some 7%Z
  /\ int_literal "" = None /\ int_literal "+ 5" = None
  /\ int_literal "3.5" = None /\ int_literal "1 2" = None
  /\ int_literal "--5" = None /\ int_literal "0x10" = None.
Proof. repeat split; vm_compute; reflexivity. Qed.

Example split_samples :
  split "goog extra tokens" = ["goog"; "extra"; "tokens"]
  /\ split "  a  b " = ["a"; "b"] /\ split "   " = [] /\ split "" = [].
Proof. repeat split; vm_compute; reflexivity. Qed.

(** ** Strings *)

Lemma upper_char_idem (c : ascii) : upper_char (upper_char c) = upper_char c.
Proof. destruct c as [[] [] [] [] [] [] [] []]; vm_compute; reflexivity. Qed.

Lemma upper_idem (s : string) : upper (upper s) = upper s.
Proof.
  induction s as [|c s IH]; simpl; [reflexivity|].
  now rewrite upper_char_idem, IH.
Qed.

Lemma truthy_upper (s : string) : truthy (upper s) = truthy s.
Proof. now destruct s. Qed.

Lemma truthy_app_r (w : string) (c : ascii) :
  truthy (w +:+ String c EmptyString) = true.
Proof. now destruct w. Qed.

(** Every token [s.split()] answers is non-empty. *)
Lemma split_from_truthy (s : string) : forall cur : option string,
  (forall w, cur = Some w -> truthy w = true) ->
  Forall (fun t => truthy t = true) (split_from cur s).
Proof.
  induction s as [|c s IH]; intros cur Hcur; simpl.
  - destruct cur as [w|]; [|constructor].
    constructor; [now apply Hcur | constructor].
  - destruct (isspace c), cur as [w|].
    + constructor; [now apply Hcur|]. apply IH. discriminate.
    + apply IH. discriminate.
    + apply IH. intros w' [= <-]. apply truthy_app_r.
    + apply IH. now intros w' [= <-].
Qed.

Lemma split_truthy (s : string) : Forall (fun t => truthy t = true) (split s).
Proof. apply split_from_truthy. discriminate. Qed.

Lemma split_head_truthy (s token : string) (rest : list string) :
  split s = token :: rest -> truthy (upper token) = true.
Proof.
  intros Hs. pose proof (split_truthy s) as Hall. rewrite Hs in Hall.
  rewrite truthy_upper. now inversion Hall.
Qed.

(** A string of whitespace only has no token. *)
Lemma split_from_blank (s : string) :
  (forall c, In c (list_ascii_of_string s) -> isspace c = true) ->
  split_from None s = [].
Proof.
  induction s as [|c s IH]; intros Hall; simpl; [reflexivity|].
  rewrite (Hall c) by now left.
  apply IH. intros c' Hc'. apply Hall. now right.
Qed.

(** ** Exceptions *)

(** The parser fails with [ValueError] only. *)
Lemma strptime_raises (s : string) (e : exn) :
  strptime s = Raise e -> exists msg, e = ValueError msg.
Proof.
  unfold strptime.
  destruct (re_match s) as [[[[y m] d] rest]|]; [|intros [= <-]; eauto].
  destruct (truthy rest); [intros [= <-]; eauto|].
  destruct (y <? 1)%Z; [intros [= <-]; eauto|].
  destruct (days_in_month y m <? d)%Z; [intros [= <-]; eauto | discriminate].
Qed.

(** ** The numeric stages *)

Lemma lookback_stage_bounded (form : multidict) :
  lookback_stage form
  = bounded_int 30 1825 365 InvalidLookback (md_get "lookback_days" form).
Proof.
  unfold lookback_stage, int_field, py_int, bounded_int.
  destruct (md_get "lookback_days" form) as [text|]; [|reflexivity].
  destruct (int_literal text) as [v|]; [|reflexivity]. cbn.
  destruct (Z.ltb_spec v 30), (Z.gtb_spec v 1825),
    (Z.leb_spec 30 v), (Z.leb_spec v 1825); cbn; try reflexivity; lia.
Qed.

Lemma crossover_stage_bounded (form : multidict) :
  crossover_stage form
  = bounded_int 30 365 180 InvalidCrossover (md_get "crossover_days" form).
Proof.
  unfold crossover_stage, int_field, py_int, bounded_int.
  destruct (md_get "crossover_days" form) as [text|]; [|reflexivity].
  destruct (int_literal text) as [v|]; [|reflexivity]. cbn.
  destruct (Z.ltb_spec v 30), (Z.gtb_spec v 365),
    (Z.leb_spec 30 v), (Z.leb_spec v 365); cbn; try reflexivity; lia.
Qed.

Section BoundedInt.

Variables lo hi default : Z.
Variable failure : exn.

Lemma bounded_int_absent :
  bounded_int lo hi default failure None = Ok default.
Proof. reflexivity. Qed.

Lemma bounded_int_fails_iff (text : string) :
  bounded_int lo hi default failure (Some text) = Raise failure
  <-> int_literal text = None
      \/ exists v, int_literal text = Some v /\ (v < lo \/ hi < v)%Z.
Proof.
  unfold bounded_int. destruct (int_literal text) as [v|].
  - destruct (Z.leb_spec lo v), (Z.leb_spec v hi); cbn; split.
    all: try discriminate; try (intros _; reflexivity).
    all: try (intros [?|(v' & [= <-] & ?)]; [discriminate|lia]).
    all: intros _; right; exists v; split; [reflexivity|lia].
  - split; [now left | reflexivity].
Qed.

Lemma bounded_int_accepts (text : string) (v : Z) :
  int_literal text = Some v -> (lo <= v <= hi)%Z ->
  bounded_int lo hi default failure (Some text) = Ok v.
Proof.
  intros Hv [Hlo Hhi]. unfold bounded_int. rewrite Hv.
  destruct (Z.leb_spec lo v), (Z.leb_spec v hi); cbn; try reflexivity; lia.
Qed.

Lemma bounded_int_range (field : option string) (v : Z) :
  (lo <= default <= hi)%Z ->
  bounded_int lo hi default failure field = Ok v -> (lo <= v <= hi)%Z.
Proof.
  intros Hd. unfold bounded_int. destruct field as [text|].
  - destruct (int_literal text) as [v'|]; [|discriminate].
    destruct (Z.leb_spec lo v'), (Z.leb_spec v' hi); cbn; try discriminate.
    intros [= <-]. lia.
  - now intros [= <-].
Qed.

End BoundedInt.

(** C6.  The numeric stages are boundary-inclusive with defaults.  An absent
    [lookback_days] validates to 365; a supplied one fails with
    [InvalidLookback] exactly when [int] refuses the text or the value lies
    outside 30..1825, and is accepted otherwise; 29 and 1826 are rejected,
    30 and 1825 accepted.  The same holds of [crossover_days] with default
    180, range 30..365 and [InvalidCrossover]; 29 and 366 are rejected, 30
    and 365 accepted. *)
Theorem numeric_stages_inclusive_bounds :
  (forall form, md_get "lookback_days" form = None ->
     lookback_stage form = Ok 365%Z)
  /\ (forall form text, md_get "lookback_days" form = Some text ->
        (lookback_stage form = Raise InvalidLookback
         <-> int_literal text = None
             \/ exists v, int_literal text = Some v /\ (v < 30 \/ 1825 < v)%Z)
        /\ (forall v, int_literal text = Some v -> (30 <= v <= 1825)%Z ->
              lookback_stage form = Ok v))
  /\ (lookback_stage [("lookback_days", "29")] = Raise InvalidLookback
      /\ lookback_stage [("lookback_days", "1826")] = Raise InvalidLookback
      /\ lookback_stage [("lookback_days", "30")] = Ok 30%Z
      /\ lookback_stage [("lookback_days", "1825")] = Ok 1825%Z)
  /\ (forall form, md_get "crossover_days" form = None ->
        crossover_stage form = Ok 180%Z)
  /\ (forall form text, md_get "crossover_days" form = Some text ->
        (crossover_stage form = Raise InvalidCrossover
         <-> int_literal text = None
             \/ exists v, int_literal text = Some v /\ (v < 30 \/ 365 < v)%Z)
        /\ (forall v, int_literal text = Some v -> (30 <= v <= 365)%Z ->
              crossover_stage form = Ok v))
  /\ (crossover_stage [("crossover_days", "29")] = Raise InvalidCrossover
      /\ crossover_stage [("crossover_days", "366")] = Raise InvalidCrossover
      /\ crossover_stage [("crossover_days", "30")] = Ok 30%Z
      /\ crossover_stage [("crossover_days", "365")] = Ok 365%Z).
Proof.
  split; [|split; [|split; [|split; [|split]]]].
  - intros form H. rewrite lookback_stage_bounded, H. reflexivity.
  - intros form text H. rewrite lookback_stage_bounded, H. split.
    + apply bounded_int_fails_iff.
    + apply bounded_int_accepts.
  - repeat split; vm_compute; reflexivity.
  - intros form H. rewrite crossover_stage_bounded, H. reflexivity.
  - intros form text H. rewrite crossover_stage_bounded, H. split.
    + apply bounded_int_fails_iff.
    + apply bounded_int_accepts.
  - repeat split; vm_compute; reflexivity.
Qed.

(** A validated request never carries a window outside its range. *)
Lemma validated_windows_in_range (form : multidict) (v : Z) :
  (lookback_stage form = Ok v -> (30 <= v <= 1825)%Z)
  /\ (crossover_stage form = Ok v -> (30 <= v <= 365)%Z).
Proof.
  rewrite lookback_stage_bounded, crossover_stage_bounded.
  split; apply bounded_int_range; lia.
Qed.

(** ** The date stage *)

Lemma end_date_stage_supplied (parse : string -> result (Z * Z * Z))
  (form : multidict) (text : string) :
  md_get "end_date" form = Some text -> text <> EmptyString ->
  end_date_stage_with parse form
  = (_ ← except_ValueError (parse text) InvalidDateFormat; Ok (Some text)).
Proof.
  intros Hget Hne. unfold end_date_stage_with. rewrite Hget.
  destruct text; [congruence | reflexivity].
Qed.

(** C7.  A supplied, non-empty [end_date] is parsed against [%Y-%m-%d] and
    the stage fails with [InvalidDateFormat] exactly when the parse fails
    (as for 2024-13-01), handing the text on otherwise; an omitted or empty
    field validates to [None] whatever the parser would have said, so the
    parser is not consulted. *)
Theorem end_date_stage_format :
  (forall form text,
     md_get "end_date" form = Some text -> text <> EmptyString ->
     (end_date_stage form = Raise InvalidDateFormat
      <-> exists e, strptime text = Raise e)
     /\ (forall d, strptime text = Ok d ->
           end_date_stage form = Ok (Some text)))
  /\ (exists e, strptime "2024-13-01" = Raise e)
  /\ end_date_stage [("end_date", "2024-13-01")] = Raise InvalidDateFormat
  /\ (forall parse form,
        md_get "end_date" form = None
        \/ md_get "end_date" form = Some EmptyString ->
        end_date_stage_with parse form = Ok None).
Proof.
  split; [|split; [|split]].
  - intros form text Hget Hne. unfold end_date_stage.
    rewrite (end_date_stage_supplied strptime form text Hget Hne).
    destruct (strptime text) as [d|e] eqn:Hp.
    + split.
      * split; [discriminate | intros [e He]; discriminate].
      * intros d' _. reflexivity.
    + destruct (strptime_raises _ _ Hp) as [msg ->]. split.
      * split; [intros _; eexists; reflexivity | intros _; reflexivity].
      * intros d' Hd. discriminate.
  - eexists. vm_compute. reflexivity.
  - vm_compute. reflexivity.
  - intros parse form [H|H]; unfold end_date_stage_with; rewrite H;
      reflexivity.
Qed.

(** C9.  A numeric field supplied as the empty string is an error and not
    a default: [lookback_days] then fails with [InvalidLookback] and
    [crossover_days] with [InvalidCrossover], the defaults 365 and 180
    standing for an absent field only; an [end_date] supplied as the empty
    string validates to [None] as an absent one does. *)
Theorem empty_numeric_field_is_an_error :
  (forall form, md_get "lookback_days" form = Some EmptyString ->
     lookback_stage form = Raise InvalidLookback)
  /\ (forall form, md_get "crossover_days" form = Some EmptyString ->
        crossover_stage form = Raise InvalidCrossover)
  /\ (forall form, md_get "lookback_days" form = None ->
        lookback_stage form = Ok 365%Z)
  /\ (forall form, md_get "crossover_days" form = None ->
        crossover_stage form = Ok 180%Z)
  /\ (forall form, md_get "end_date" form = Some EmptyString ->
        end_date_stage form = Ok None)
  /\ (forall form, md_get "end_date" form = None ->
        end_date_stage form = Ok None).
Proof.
  split; [|split; [|split; [|split; [|split]]]]; intros form H.
  - rewrite lookback_stage_bounded, H. reflexivity.
  - rewrite crossover_stage_bounded, H. reflexivity.
  - rewrite lookback_stage_bounded, H. reflexivity.
  - rewrite crossover_stage_bounded, H. reflexivity.
  - unfold end_date_stage, end_date_stage_with. rewrite H. reflexivity.
  - unfold end_date_stage, end_date_stage_with. rewrite H. reflexivity.
Qed.

(** ** The analyze handler *)

(** The page and status the handler answers for a failure [e] of a request
    whose symbol is [ticker_input]. *)
Lemma analyze_except_bound (ticker_input : string) (e : exn) :
  analyze_except (Some ticker_input) e
  = Ok (body_with_status
          (error_html ("Error analyzing " +:+ ticker_input +:+ ": "
                       +:+ exn_str e)) 500).
Proof. reflexivity. Qed.

Lemma analyze_except_unbound (e : exn) :
  analyze_except None e = Raise (UnboundLocalError "ticker_input").
Proof. reflexivity. Qed.

Section Analyze.

Variable TICKERS : list (gmap string string).
Variable TICKER_DICT : gmap string string.
Variable figure : Type.
Variable create_combined_analysis :
  string -> option string -> Z -> Z -> result figure.
Variable to_html : figure -> result string.

Local Abbreviation analyze_try' :=
  (analyze_try TICKERS TICKER_DICT figure create_combined_analysis to_html).
Local Abbreviation analyze' :=
  (analyze TICKERS TICKER_DICT figure create_combined_analysis to_html).
Local Abbreviation perform_analysis' :=
  (perform_analysis figure create_combined_analysis to_html).

(** The analysis block answers the chart document or raises
    [AnalysisFailure]. *)
Lemma perform_analysis_cases (ticker : string) (end_date : option string)
  (lookback_days crossover_days : Z) :
  (exists fig html,
     create_combined_analysis ticker end_date lookback_days crossover_days
     = Ok fig
     /\ to_html fig = Ok html
     /\ perform_analysis' ticker end_date lookback_days crossover_days
        = Ok {| body := html; status := 200;
                content_type := Some "text/html" |})
  \/ (exists e,
        perform_analysis' ticker end_date lookback_days crossover_days
        = Raise (AnalysisFailure e)).
Proof.
  unfold perform_analysis.
  destruct (create_combined_analysis _ _ _ _) as [fig|e] eqn:Hfig; cbn.
  - destruct (to_html fig) as [html|e] eqn:Hhtml; cbn.
    + left. exists fig, html. auto.
    + right. now exists e.
  - right. now exists e.
Qed.

(** Without a token in the ticker field the body of the [try] is left at
    line 75, before [ticker_input] is bound. *)
Lemma analyze_try_no_token (form : multidict) :
  split (md_get_default "ticker" "" form) = [] ->
  analyze_try' form = (None, Raise (IndexError "list index out of range")).
Proof. intros H. unfold analyze_try. now rewrite H. Qed.

Lemma analyze_no_token (form : multidict) :
  split (md_get_default "ticker" "" form) = [] ->
  analyze' form = Propagates (UnboundLocalError "ticker_input").
Proof. intros H. unfold analyze. now rewrite analyze_try_no_token. Qed.

(** A ticker field of whitespace only, the empty one included, has no
    token. *)
Lemma analyze_blank_ticker (form : multidict) :
  (forall c, In c (list_ascii_of_string (md_get_default "ticker" "" form)) ->
             isspace c = true) ->
  analyze' form = Propagates (UnboundLocalError "ticker_input").
Proof.
  intros Hblank. apply analyze_no_token. now apply split_from_blank.
Qed.

(** With a token the local is bound when the body is left, and the check of
    line 78 passes: the token is not empty. *)
Lemma analyze_try_token (form : multidict) (token : string)
  (rest : list string) :
  split (md_get_default "ticker" "" form) = token :: rest ->
  analyze_try' form
  = (Some (upper token),
     ticker ← resolve TICKERS TICKER_DICT (upper token);
     end_date ← end_date_stage form;
     lookback_days ← lookback_stage form;
     crossover_days ← crossover_stage form;
     perform_analysis' ticker end_date lookback_days crossover_days).
Proof.
  intros H. unfold analyze_try. rewrite H. cbn [getitem0].
  now rewrite (split_head_truthy _ _ _ H).
Qed.

(** The check of line 78 never fires: [MissingSymbol] is not among the
    exceptions the body raises. *)
Lemma analyze_try_binds_or_index_error (form : multidict) :
  (exists token, fst (analyze_try' form) = Some (upper token)
                 /\ truthy (upper token) = true)
  \/ analyze_try' form = (None, Raise (IndexError "list index out of range")).
Proof.
  destruct (split (md_get_default "ticker" "" form)) as [|token rest] eqn:H.
  - right. now apply analyze_try_no_token.
  - left. exists token. rewrite (analyze_try_token _ _ _ H).
    split; [reflexivity | now apply (split_head_truthy _ _ _ H)].
Qed.

(** C10.  When the ticker field holds at least one token the handler
    answers a response and lets no exception escape: the chart document
    the collaborators produced, with status 200, or the error page naming
    the uppercased token and the failure, with status 500. *)
Theorem analyze_total_with_token (form : multidict) (token : string)
  (rest : list string) :
  split (md_get_default "ticker" "" form) = token :: rest ->
  (exists fig html,
     to_html fig = Ok html
     /\ analyze' form
        = Returns {| body := html; status := 200;
                     content_type := Some "text/html" |})
  \/ (exists e,
        analyze' form
        = Returns (body_with_status
                     (error_html ("Error analyzing " +:+ upper token +:+ ": "
                                  +:+ exn_str e)) 500)).
Proof.
  intros H. unfold analyze. rewrite (analyze_try_token _ _ _ H).
  destruct (resolve TICKERS TICKER_DICT (upper token)) as [ticker|e];
    [|right; exists e; reflexivity].
  destruct (end_date_stage form) as [end_date|e];
    [|right; exists e; reflexivity].
  destruct (lookback_stage form) as [lookback_days|e];
    [|right; exists e; reflexivity].
  destruct (crossover_stage form) as [crossover_days|e];
    [|right; exists e; reflexivity].
  cbn [mbind result_bind].
  destruct (perform_analysis_cases ticker end_date lookback_days crossover_days)
    as [(fig & html & _ & Hhtml & ->)|[e ->]].
  - left. exists fig, html. split; [assumption | reflexivity].
  - right. exists (AnalysisFailure e). reflexivity.
Qed.

End Analyze.

Lemma analyze_total_with_token_witness :
  let form := [("ticker", "goog extra tokens")] in
  (exists fig html,
     sample_to_html fig = Ok html
     /\ analyze sample_tickers sample_dict unit sample_analysis
          sample_to_html form
        = Returns {| body := html; status := 200;
                     content_type := Some "text/html" |})
  \/ (exists e,
        analyze sample_tickers sample_dict unit sample_analysis
          sample_to_html form
        = Returns (body_with_status
                     (error_html ("Error analyzing " +:+ upper "goog" +:+ ": "
                                  +:+ exn_str e)) 500)).
Proof.
  exact (analyze_total_with_token sample_tickers sample_dict unit
           sample_analysis sample_to_html
           [("ticker", "goog extra tokens")] "goog" ["extra"; "tokens"]
           eq_refl).
Defined.

(** C1.  A request whose ticker field is empty, blank or absent does not
    fail with [MissingSymbol] and is not answered with the error page:
    line 75 raises [IndexError] before the check of line 78, the handler
    then reads the unbound [ticker_input], and [UnboundLocalError] escapes
    the view function. *)
Theorem analyze_blank_ticker_escapes
  (TICKERS : list (gmap string string)) (TICKER_DICT : gmap string string)
  (figure : Type)
  (create_combined_analysis :
     string -> option string -> Z -> Z -> result figure)
  (to_html : figure -> result string) :
  analyze TICKERS TICKER_DICT figure create_combined_analysis to_html
    [("ticker", "")]
  = Propagates (UnboundLocalError "ticker_input")
  /\ analyze TICKERS TICKER_DICT figure create_combined_analysis to_html
       [("ticker", "   ")]
     = Propagates (UnboundLocalError "ticker_input")
  /\ analyze TICKERS TICKER_DICT figure create_combined_analysis to_html []
     = Propagates (UnboundLocalError "ticker_input").
Proof.
  split; [|split]; apply analyze_no_token; reflexivity.
Qed.

(** C2.  The failure of a blank ticker is not rendered as the error page:
    the body of the [try] is left with [IndexError] while [ticker_input]
    is unbound, the handler raises on reading it whatever the failure was,
    and the request ends in an escaping exception although its other
    fields are well-formed or not. *)
Theorem analyze_failure_without_error_page
  (TICKERS : list (gmap string string)) (TICKER_DICT : gmap string string)
  (figure : Type)
  (create_combined_analysis :
     string -> option string -> Z -> Z -> result figure)
  (to_html : figure -> result string) :
  analyze_try TICKERS TICKER_DICT figure create_combined_analysis to_html
    [("ticker", " "); ("lookback_days", "365")]
  = (None, Raise (IndexError "list index out of range"))
  /\ (forall e : exn,
        analyze_except None e = Raise (UnboundLocalError "ticker_input"))
  /\ analyze TICKERS TICKER_DICT figure create_combined_analysis to_html
       [("ticker", " "); ("lookback_days", "365")]
     = Propagates (UnboundLocalError "ticker_input").
Proof.
  split; [|split].
  - apply analyze_try_no_token. reflexivity.
  - intros e. reflexivity.
  - apply analyze_no_token. reflexivity.
Qed.

(** ** Resolution *)

Lemma startswith_spec (s p : string) :
  startswith s p = true <-> starts_with p s.
Proof.
  revert s. induction p as [|a p IH]; intros s; simpl.
  - split; [intros _; now exists s | reflexivity].
  - destruct s as [|b s].
    + split; [discriminate | intros [r Hr]; discriminate].
    + rewrite andb_true_iff, Ascii.eqb_eq, IH. split.
      * intros [-> [r ->]]. now exists r.
      * intros [r [= -> ->]]. split; [reflexivity | now exists r].
Qed.

Lemma startswith_false_spec (s p : string) :
  startswith s p = false <-> ~ starts_with p s.
Proof.
  rewrite <- startswith_spec. destruct (startswith s p); split;
    congruence.
Qed.

(** A prefix of a canonical string is canonical. *)
Lemma canonical_prefix (p r : string) : canonical (p +:+ r) -> canonical p.
Proof.
  unfold canonical. induction p as [|c p IH]; simpl; [reflexivity|].
  intros [= Hc Hp]. now rewrite Hc, IH.
Qed.

Lemma matching_tickers_ok (ticker_input : string)
  (tickers : list (gmap string string)) :
  has_symbols tickers ->
  matching_tickers ticker_input tickers
  = Ok (List.filter (fun s => startswith s ticker_input)
          (catalog_symbols tickers)).
Proof.
  unfold has_symbols, catalog_symbols.
  induction 1 as [|t tickers [sym Hsym] _ IH]; [reflexivity|].
  cbn [matching_tickers omap list_omap]. unfold getitem.
  rewrite Hsym. cbn [mbind result_bind List.filter].
  destruct (startswith sym ticker_input).
  - cbn [mbind result_bind]. fold (matching_tickers ticker_input tickers).
    now rewrite IH.
  - exact IH.
Qed.

(** The first element a filter keeps is the first in order that
    qualifies. *)
Lemma filter_first {A : Type} (p : A -> bool) (l1 l2 : list A) (x : A) :
  (forall y, In y l1 -> p y = false) -> p x = true ->
  List.filter p (l1 ++ x :: l2) = x :: List.filter p l2.
Proof.
  intros Hl1 Hx. induction l1 as [|y l1 IH]; simpl.
  - now rewrite Hx.
  - rewrite (Hl1 y) by now left.
    apply IH. intros z Hz. apply Hl1. now right.
Qed.

Lemma filter_none {A : Type} (p : A -> bool) (l : list A) :
  (forall y, In y l -> p y = false) -> List.filter p l = [].
Proof.
  intros Hl. induction l as [|y l IH]; simpl; [reflexivity|].
  rewrite (Hl y) by now left.
  apply IH. intros z Hz. apply Hl. now right.
Qed.

Section Resolve.

Variable TICKERS : list (gmap string string).
Variable TICKER_DICT : gmap string string.

Local Abbreviation resolve' := (resolve TICKERS TICKER_DICT).

Lemma resolve_exact (ticker_input : string) :
  is_Some (TICKER_DICT !! ticker_input) ->
  resolve' ticker_input = Ok ticker_input.
Proof. intros [nm H]. unfold resolve. now rewrite H. Qed.

Lemma resolve_scan (ticker_input : string) :
  has_symbols TICKERS -> TICKER_DICT !! ticker_input = None ->
  resolve' ticker_input
  = Ok (hd ticker_input
          (List.filter (fun s => startswith s ticker_input)
             (catalog_symbols TICKERS))).
Proof.
  intros Hwf H. unfold resolve. rewrite H, (matching_tickers_ok _ _ Hwf).
  cbn [mbind result_bind].
  now destruct (List.filter _ _).
Qed.

(** C8.  On a catalog whose entries carry symbols in canonical (uppercase)
    form, keyed by canonical symbols: an input whose uppercased form is a
    key of [TICKER_DICT] resolves to itself; otherwise the input resolves
    to the first symbol, in catalog order, that starts with it, a symbol
    that merely contains it not counting; and it resolves to itself when no
    symbol starts with it.  Resolution always answers. *)
Theorem resolve_first_prefix_match (ticker_input : string) :
  has_symbols TICKERS ->
  Forall canonical (catalog_symbols TICKERS) ->
  map_Forall (fun key _ => canonical key) TICKER_DICT ->
  (is_Some (TICKER_DICT !! upper ticker_input) ->
   resolve' ticker_input = Ok ticker_input)
  /\ (TICKER_DICT !! upper ticker_input = None ->
      forall (before after : list string) (sym : string),
        catalog_symbols TICKERS = before ++ sym :: after ->
        starts_with ticker_input sym ->
        (forall s, In s before -> ~ starts_with ticker_input s) ->
        resolve' ticker_input = Ok sym)
  /\ (TICKER_DICT !! upper ticker_input = None ->
      (forall s, In s (catalog_symbols TICKERS) ->
         ~ starts_with ticker_input s) ->
      resolve' ticker_input = Ok ticker_input)
  /\ (exists ticker, resolve' ticker_input = Ok ticker).
Proof.
  intros Hwf Hsyms Hkeys.
  assert (Hnot : TICKER_DICT !! upper ticker_input = None ->
                 TICKER_DICT !! ticker_input = None).
  { intros Hup. destruct (TICKER_DICT !! ticker_input) as [nm|] eqn:Hin;
      [|reflexivity].
    pose proof (Hkeys _ _ Hin) as Hc. unfold canonical in Hc. cbn in Hc.
    rewrite Hc in Hup. congruence. }
  split; [|split; [|split]].
  - intros [nm Hup].
    destruct (String.eqb_spec (upper ticker_input) ticker_input) as [Heq|Hne].
    + apply resolve_exact. rewrite Heq in Hup. eauto.
    + assert (Hin : TICKER_DICT !! ticker_input = None).
      { destruct (TICKER_DICT !! ticker_input) as [nm'|] eqn:Hin;
          [|reflexivity].
        now pose proof (Hkeys _ _ Hin). }
      rewrite (resolve_scan _ Hwf Hin), filter_none; [reflexivity|].
      intros s Hs. apply startswith_false_spec. intros [r ->].
      rewrite Forall_forall in Hsyms. apply Hne.
      apply (canonical_prefix _ r). apply Hsyms. now apply list_elem_of_In.
  - intros Hup before after sym Hcat Hsym Hbefore.
    rewrite (resolve_scan _ Hwf (Hnot Hup)), Hcat, filter_first;
      [reflexivity| |now apply startswith_spec].
    intros s Hs. apply startswith_false_spec. now apply Hbefore.
  - intros Hup Hnone.
    rewrite (resolve_scan _ Hwf (Hnot Hup)), filter_none; [reflexivity|].
    intros s Hs. apply startswith_false_spec. now apply Hnone.
  - destruct (TICKER_DICT !! ticker_input) as [nm|] eqn:Hin.
    + exists ticker_input. apply resolve_exact. eauto.
    + eexists. now apply resolve_scan.
Qed.

End Resolve.

Lemma sample_tickers_have_symbols : has_symbols sample_tickers.
Proof. repeat constructor; eexists; vm_compute; reflexivity. Qed.

Lemma sample_symbols :
  catalog_symbols sample_tickers = ["AAPL"; "MSFT"; "GOOGL"].
Proof. vm_compute. reflexivity. Qed.

Lemma sample_symbols_canonical :
  Forall canonical (catalog_symbols sample_tickers).
Proof. rewrite sample_symbols. repeat constructor. Qed.

Lemma sample_dict_canonical :
  map_Forall (fun key _ => canonical key) sample_dict.
Proof.
  unfold sample_dict.
  repeat (apply map_Forall_insert_2; [reflexivity|]).
  apply map_Forall_empty.
Qed.

Lemma resolve_first_prefix_match_witness :
  resolve sample_tickers sample_dict "aapl" = Ok "aapl"
  /\ resolve sample_tickers sample_dict "GOO" = Ok "GOOGL"
  /\ resolve sample_tickers sample_dict "SFT" = Ok "SFT".
Proof.
  split; [|split].
  - apply (proj1
             (resolve_first_prefix_match sample_tickers sample_dict "aapl"
                sample_tickers_have_symbols sample_symbols_canonical
                sample_dict_canonical)).
    eexists. vm_compute. reflexivity.
  - apply (proj1 (proj2
             (resolve_first_prefix_match sample_tickers sample_dict "GOO"
                sample_tickers_have_symbols sample_symbols_canonical
                sample_dict_canonical))
             eq_refl ["AAPL"; "MSFT"] [] "GOOGL" sample_symbols).
    + exists "GL". reflexivity.
    + intros s [<-|[<-|[]]] [r Hr]; discriminate Hr.
  - apply (proj1 (proj2 (proj2
             (resolve_first_prefix_match sample_tickers sample_dict "SFT"
                sample_tickers_have_symbols sample_symbols_canonical
                sample_dict_canonical))) eq_refl).
    rewrite sample_symbols.
    intros s [<-|[<-|[<-|[]]]] [r Hr]; discriminate Hr.
Defined.

(** ** The order of search results *)

Lemma key_leb_spec (query : string) (x y : SearchResult) :
  key_leb (sort_key query x) (sort_key query y) = true
  <-> ranked_before query x y.
Proof.
  unfold key_leb, sort_key, ranked_before, String.le.
  destruct (String.eqb_spec (symbol x) query) as [Hx|Hx],
           (String.eqb_spec (symbol y) query) as [Hy|Hy]; cbn [negb Bool.eqb].
  - destruct (Nat.eqb_spec (String.length (symbol x))
                (String.length (symbol y))) as [Hl|Hl].
    + rewrite <- Is_true_true. split; [intros H; right|]; intuition lia.
    + rewrite Nat.ltb_lt. split; [intros H; right|]; intuition lia.
  - split; [intros _; now left | reflexivity].
  - split; [discriminate|]. intros [[? ?]|[[? ?] _]]; tauto.
  - destruct (Nat.eqb_spec (String.length (symbol x))
                (String.length (symbol y))) as [Hl|Hl].
    + rewrite <- Is_true_true. split; [intros H; right|]; intuition lia.
    + rewrite Nat.ltb_lt. split; [intros H; right|]; intuition lia.
Qed.

Lemma ranked_before_total (query : string) (x y : SearchResult) :
  ranked_before query x y \/ ranked_before query y x.
Proof.
  unfold ranked_before.
  destruct (decide (symbol x = query)) as [Hx|Hx],
           (decide (symbol y = query)) as [Hy|Hy]; try tauto.
  all: destruct (lt_eq_lt_dec (String.length (symbol x))
                   (String.length (symbol y))) as [[Hl|Hl]|Hl];
    try (left; right; split; [tauto | left; lia]);
    try (right; right; split; [tauto | left; lia]).
  all: destruct (total String.le (symbol x) (symbol y)) as [Hs|Hs];
    [left|right]; right; (split; [tauto | right; split; [lia | exact Hs]]).
Qed.

Lemma ranked_before_trans (query : string) (x y z : SearchResult) :
  ranked_before query x y -> ranked_before query y z ->
  ranked_before query x z.
Proof.
  unfold ranked_before.
  intros [[Hx Hy]|[Hxy Hlxy]] [[Hy' Hz]|[Hyz Hlyz]]; try tauto.
  right. split; [tauto|].
  destruct Hlxy as [Hl1|[Hl1 Hs1]], Hlyz as [Hl2|[Hl2 Hs2]];
    try (left; lia).
  right. split; [lia|]. now transitivity (symbol y).
Qed.

(** Two results neither of which is ranked strictly before the other have
    the same symbol: the ranking is a total order on symbols. *)
Lemma ranked_before_antisym (query : string) (x y : SearchResult) :
  ranked_before query x y -> ranked_before query y x -> symbol x = symbol y.
Proof.
  unfold ranked_before.
  intros [[Hx Hy]|[Hxy Hlxy]] [[Hy' Hx']|[Hyx Hlyx]]; try tauto.
  destruct Hlxy as [Hl1|[Hl1 Hs1]], Hlyx as [Hl2|[Hl2 Hs2]]; try lia.
  now apply (anti_symm String.le).
Qed.

Lemma insert_by_key_perm (query : string) (x : SearchResult)
  (l : list SearchResult) : Permutation (insert_by_key query x l) (x :: l).
Proof.
  induction l as [|y l IH]; cbn [insert_by_key]; [reflexivity|].
  destruct (key_leb (sort_key query x) (sort_key query y)); [reflexivity|].
  rewrite IH. apply perm_swap.
Qed.

Lemma sort_results_perm (query : string) (l : list SearchResult) :
  Permutation (sort_results query l) l.
Proof.
  induction l as [|x l IH]; simpl; [reflexivity|].
  now rewrite insert_by_key_perm, IH.
Qed.

Lemma insert_by_key_sorted (query : string) (x : SearchResult)
  (l : list SearchResult) :
  StronglySorted (ranked_before query) l ->
  StronglySorted (ranked_before query) (insert_by_key query x l).
Proof.
  induction 1 as [|y l Hl IH Hy]; cbn [insert_by_key].
  - repeat constructor.
  - destruct (key_leb (sort_key query x) (sort_key query y)) eqn:Hk.
    + apply key_leb_spec in Hk. constructor; [now constructor|].
      constructor; [exact Hk|].
      eapply Forall_impl; [exact Hy|].
      intros z Hz. now apply (ranked_before_trans query x y z).
    + assert (Hyx : ranked_before query y x).
      { destruct (ranked_before_total query x y) as [H|H]; [|exact H].
        apply key_leb_spec in H. congruence. }
      constructor; [exact IH|].
      rewrite insert_by_key_perm. now constructor.
Qed.

Lemma sort_results_sorted (query : string) (l : list SearchResult) :
  StronglySorted (ranked_before query) (sort_results query l).
Proof.
  induction l as [|x l IH]; simpl; [constructor|].
  now apply insert_by_key_sorted.
Qed.

Lemma StronglySorted_take {A : Type} (R : A -> A -> Prop) (n : nat)
  (l : list A) : StronglySorted R l -> StronglySorted R (take n l).
Proof.
  intros Hl. revert n. induction Hl as [|x l Hl IH Hx]; intros [|n]; simpl;
    try constructor; [apply IH|].
  apply Forall_forall. intros y Hy. rewrite Forall_forall in Hx.
  apply Hx. eapply subseteq_take. exact Hy.
Qed.

(** ** Substrings *)

Lemma app_nil_l_string (s : string) : EmptyString +:+ s = s.
Proof. reflexivity. Qed.

Lemma app_cons_string (c : ascii) (a b : string) :
  String c a +:+ b = String c (a +:+ b).
Proof. reflexivity. Qed.

(** [q in s] holds exactly when [s] splits around an occurrence of [q]. *)
Lemma str_in_spec (q s : string) :
  str_in q s = true <-> exists pre post, s = pre +:+ q +:+ post.
Proof.
  induction s as [|c s IH].
  - cbn [str_in]. rewrite orb_false_r, startswith_spec. split.
    + intros [r Hr]. now exists EmptyString, r.
    + intros (pre & post & H). destruct pre as [|c pre]; [|discriminate].
      now exists post.
  - cbn [str_in]. rewrite orb_true_iff, startswith_spec, IH. split.
    + intros [[r Hr]|(pre & post & ->)].
      * now exists EmptyString, r.
      * now exists (String c pre), post.
    + intros (pre & post & H). destruct pre as [|c' pre].
      * left. now exists post.
      * right. rewrite app_cons_string in H. injection H as _ ->.
        now exists pre, post.
Qed.

Lemma upper_app (a b : string) : upper (a +:+ b) = upper a +:+ upper b.
Proof.
  induction a as [|c a IH]; [reflexivity|].
  rewrite app_cons_string. cbn [upper]. now rewrite IH.
Qed.

Lemma upper_app_inv (s a b : string) :
  upper s = a +:+ b ->
  exists a' b', s = a' +:+ b' /\ upper a' = a /\ upper b' = b.
Proof.
  revert s. induction a as [|c a IH]; intros s H.
  - now exists EmptyString, s.
  - destruct s as [|d s]; [discriminate|].
    rewrite app_cons_string in H. cbn [upper] in H.
    injection H as Hc Hs. destruct (IH s Hs) as (a' & b' & -> & Ha & Hb).
    exists (String d a'), b'. cbn [upper]. now rewrite Hc, Ha.
Qed.

(** The test of the code, on uppercased strings, is containment with case
    ignored. *)
Lemma str_in_upper_spec (q s : string) :
  str_in (upper q) (upper s) = true <-> ci_contains q s.
Proof.
  rewrite str_in_spec. unfold ci_contains. split.
  - intros (pre & post & H).
    destruct (upper_app_inv _ _ _ H) as (pre' & rest & -> & _ & Hrest).
    destruct (upper_app_inv _ _ _ Hrest) as (mid & post' & -> & Hmid & _).
    now exists pre', mid, post'.
  - intros (pre & mid & post & -> & Hmid).
    exists (upper pre), (upper post). now rewrite !upper_app, Hmid.
Qed.

(** ** Search *)

Lemma partial_cond_matches (query : string) (t : gmap string string)
  (b : bool) :
  partial_cond query t = Ok b -> entry_matches query t = b.
Proof.
  unfold partial_cond, getitem, entry_matches.
  destruct (t !! "symbol") as [sym|]; [|discriminate].
  cbn [mbind result_bind].
  destruct (str_in query (upper sym)); cbn [mbind result_bind orb].
  - rewrite andb_true_r. now intros [= <-].
  - destruct (t !! "name") as [nm|]; [|discriminate].
    cbn [mbind result_bind].
    destruct (str_in query (upper nm)); cbn [mbind result_bind].
    + rewrite andb_true_r. now intros [= <-].
    + rewrite andb_false_r. now intros [= <-].
Qed.

(** When the scan completes, its results are those of the entries that
    match, in the order of the list. *)
Lemma partial_matches_filter (query : string)
  (tickers : list (gmap string string)) :
  forall partial,
    partial_matches query tickers = Ok partial ->
    Forall2 result_of_entry (List.filter (entry_matches query) tickers)
      partial.
Proof.
  induction tickers as [|t tickers IH]; intros partial H.
  - injection H as <-. constructor.
  - cbn [partial_matches] in H. cbn [List.filter].
    destruct (partial_cond query t) as [keep|e] eqn:Hc; [|discriminate].
    rewrite (partial_cond_matches _ _ _ Hc).
    cbn [mbind result_bind] in H. destruct keep.
    + unfold getitem in H.
      destruct (t !! "symbol") as [sym|] eqn:Hsym; [|discriminate].
      destruct (t !! "name") as [nm|] eqn:Hnm; [|discriminate].
      cbn [mbind result_bind] in H.
      destruct (partial_matches query tickers) as [tl|e]; [|discriminate].
      cbn [mbind result_bind] in H. injection H as <-.
      constructor; [|now apply IH].
      unfold result_of_entry. cbn [symbol name source]. auto.
    + now apply IH.
Qed.

Lemma partial_matches_complete (query : string)
  (tickers : list (gmap string string)) :
  complete_entries tickers ->
  exists partial, partial_matches query tickers = Ok partial.
Proof.
  induction 1 as [|t tickers [[sym Hsym] [nm Hnm]] _ [tl IH]].
  - now exists [].
  - cbn [partial_matches]. unfold partial_cond, getitem.
    rewrite Hsym, Hnm. cbn [mbind result_bind].
    destruct (str_in query (upper sym)); cbn [mbind result_bind].
    + destruct (negb (String.eqb sym query)); rewrite IH;
        cbn [mbind result_bind]; eauto.
    + destruct (str_in query (upper nm)); cbn [mbind result_bind];
        [destruct (negb (String.eqb sym query))|]; rewrite IH;
        cbn [mbind result_bind]; eauto.
Qed.

Lemma exact_result_length (TICKER_DICT : gmap string string)
  (query : string) : length (exact_result TICKER_DICT query) <= 1.
Proof. unfold exact_result. destruct (TICKER_DICT !! query); simpl; lia. Qed.

Section Search.

Variable TICKERS : list (gmap string string).
Variable TICKER_DICT : gmap string string.

Local Abbreviation search_try' := (search_try TICKERS TICKER_DICT).
Local Abbreviation search_ticker' := (search_ticker TICKERS TICKER_DICT).
Local Abbreviation exact' := (exact_result TICKER_DICT).

(** The candidates before sorting: the exact match, then as many partial
    matches as fit under five. *)
Lemma search_try_candidates (query : string) :
  search_try' query
  = (partial ← partial_matches query TICKERS;
     Ok (jsonify
           (take 5 (sort_results query
                      (exact' query
                       ++ take (5 - length (exact' query)) partial))))).
Proof.
  unfold search_try, exact_result.
  destruct (TICKER_DICT !! query) as [nm|],
    (partial_matches query TICKERS) as [partial|e]; reflexivity.
Qed.

(** Five candidates at most are sorted, so the final truncation drops
    nothing. *)
Lemma search_try_sorted_candidates (query : string)
  (partial : list SearchResult) :
  partial_matches query TICKERS = Ok partial ->
  search_try' query
  = Ok (jsonify (sort_results query
                   (exact' query
                    ++ take (5 - length (exact' query)) partial))).
Proof.
  intros H. rewrite search_try_candidates, H. cbn [mbind result_bind].
  do 2 f_equal. apply take_ge.
  rewrite (Permutation_length (sort_results_perm _ _)), length_app,
    length_take.
  pose proof (exact_result_length TICKER_DICT query). lia.
Qed.

(** The view function in one equation: an empty list for an empty query
    and for a failed scan, the result of the scan otherwise. *)
Lemma search_ticker_cases (args : multidict) :
  search_ticker' args
  = Returns
      (if truthy (upper (md_get_default "query" "" args)) then
         match search_try' (upper (md_get_default "query" "" args)) with
         | Ok r => r
         | Raise _ => jsonify []
         end
       else jsonify []).
Proof.
  unfold search_ticker.
  destruct (upper (md_get_default "query" "" args)) as [|c query];
    [reflexivity|].
  cbn [truthy negb orb String.length Nat.ltb Nat.leb].
  now destruct (search_try' (String c query)).
Qed.

End Search.

Lemma Forall2_elem_of_r {A B : Type} (R : A -> B -> Prop) (l1 : list A)
  (l2 : list B) (y : B) :
  Forall2 R l1 l2 -> y ∈ l2 -> exists x, x ∈ l1 /\ R x y.
Proof.
  induction 1 as [|x y' l1 l2 HR _ IH]; intros Hy.
  - now apply elem_of_nil in Hy.
  - apply elem_of_cons in Hy as [->|Hy].
    + exists x. split; [left | exact HR].
    + destruct (IH Hy) as (x' & Hx' & HR'). exists x'. split;
        [now right | exact HR'].
Qed.

(** What a kept entry guarantees about the result built from it. *)
Lemma entry_matches_result (raw : string) (t : gmap string string)
  (r : SearchResult) :
  entry_matches (upper raw) t = true -> result_of_entry t r ->
  symbol r <> upper raw
  /\ (ci_contains raw (symbol r) \/ ci_contains raw (name r)).
Proof.
  unfold entry_matches, result_of_entry. intros Hm (Hsym & Hnm & _).
  rewrite Hsym, Hnm in Hm.
  apply andb_true_iff in Hm as [Hne Hin]. split.
  - apply negb_true_iff in Hne. now apply String.eqb_neq.
  - apply orb_true_iff in Hin as [H|H]; [left|right];
      now apply str_in_upper_spec.
Qed.

Section SearchClaims.

Variable TICKERS : list (gmap string string).
Variable TICKER_DICT : gmap string string.

Local Abbreviation search_try' := (search_try TICKERS TICKER_DICT).
Local Abbreviation search_ticker' := (search_ticker TICKERS TICKER_DICT).
Local Abbreviation exact' := (exact_result TICKER_DICT).

(** C5.  Search never lets an error reach its caller: for every request
    it returns a list, the empty one when the query is empty or absent and
    when the scan raised. *)
Theorem search_never_raises (args : multidict) :
  (exists l, search_ticker' args = Returns (jsonify l))
  /\ (upper (md_get_default "query" "" args) = EmptyString ->
      search_ticker' args = Returns (jsonify []))
  /\ (forall e,
        search_try' (upper (md_get_default "query" "" args)) = Raise e ->
        search_ticker' args = Returns (jsonify []))
  /\ search_ticker' [] = Returns (jsonify [])
  /\ search_ticker' [("query", "")] = Returns (jsonify []).
Proof.
  split; [|split; [|split; [|split]]].
  - rewrite search_ticker_cases.
    destruct (truthy _); [|now exists []].
    destruct (search_try' _) as [[l]|e]; [now exists l | now exists []].
  - intros H. rewrite search_ticker_cases, H. reflexivity.
  - intros e H. rewrite search_ticker_cases, H. now destruct (truthy _).
  - reflexivity.
  - reflexivity.
Qed.

(** C4.  The list search returns is sorted by the composite key: the exact
    match of the query first, then the shorter symbol, then the symbol that
    comes first lexicographically; this ranking is total and transitive,
    and two results it cannot tell apart have the same symbol. *)
Theorem search_results_ranked (args : multidict) :
  (exists l,
     search_ticker' args = Returns (jsonify l)
     /\ StronglySorted
          (ranked_before (upper (md_get_default "query" "" args))) l)
  /\ (forall query x y, ranked_before query x y \/ ranked_before query y x)
  /\ (forall query x y z,
        ranked_before query x y -> ranked_before query y z ->
        ranked_before query x z)
  /\ (forall query x y,
        ranked_before query x y -> ranked_before query y x ->
        symbol x = symbol y).
Proof.
  split; [|split; [|split]].
  - rewrite search_ticker_cases.
    destruct (truthy _); [|exists []; split; [reflexivity | constructor]].
    rewrite search_try_candidates.
    destruct (partial_matches _ TICKERS) as [partial|e];
      cbn [mbind result_bind].
    + eexists. split; [reflexivity|].
      apply StronglySorted_take, sort_results_sorted.
    + exists []. split; [reflexivity | constructor].
  - apply ranked_before_total.
  - apply ranked_before_trans.
  - apply ranked_before_antisym.
Qed.

(** C3.  For a non-empty query search returns at most five results; each
    is the exact match of the uppercased query in [TICKER_DICT] or comes
    from a catalog entry whose symbol or display name contains the query,
    case ignored, and whose symbol is not the query; and the results are
    the exact match together with the first partial matches in catalog
    order, as many as fit under five, none of them being the exact match.
    On a catalog whose entries all carry a symbol and a name the scan
    completes. *)
Theorem search_at_most_five_matching (args : multidict)
  (l : list SearchResult) :
  md_get_default "query" "" args <> EmptyString ->
  search_ticker' args = Returns (jsonify l) ->
  length l <= 5
  /\ (forall r, r ∈ l ->
        (symbol r = upper (md_get_default "query" "" args)
         /\ TICKER_DICT !! upper (md_get_default "query" "" args)
            = Some (name r))
        \/ (symbol r <> upper (md_get_default "query" "" args)
            /\ (ci_contains (md_get_default "query" "" args) (symbol r)
                \/ ci_contains (md_get_default "query" "" args) (name r))
            /\ exists t, t ∈ TICKERS /\ result_of_entry t r))
  /\ (forall partial,
        partial_matches (upper (md_get_default "query" "" args)) TICKERS
        = Ok partial ->
        Forall2 result_of_entry
          (List.filter
             (entry_matches (upper (md_get_default "query" "" args)))
             TICKERS)
          partial
        /\ Forall
             (fun r => symbol r <> upper (md_get_default "query" "" args))
             partial
        /\ Permutation l
             (exact' (upper (md_get_default "query" "" args))
              ++ take
                   (5 - length
                          (exact' (upper (md_get_default "query" "" args))))
                   partial))
  /\ (complete_entries TICKERS ->
      exists partial,
        partial_matches (upper (md_get_default "query" "" args)) TICKERS
        = Ok partial).
Proof.
  set (raw := md_get_default "query" "" args).
  intros Hraw Hret.
  assert (Htruthy : truthy (upper raw) = true).
  { rewrite truthy_upper. destruct raw; [congruence | reflexivity]. }
  rewrite search_ticker_cases in Hret. fold raw in Hret.
  rewrite Htruthy in Hret.
  assert (Hkept : forall partial r,
            partial_matches (upper raw) TICKERS = Ok partial -> r ∈ partial ->
            symbol r <> upper raw
            /\ (ci_contains raw (symbol r) \/ ci_contains raw (name r))
            /\ exists t, t ∈ TICKERS /\ result_of_entry t r).
  { intros partial r Hp Hr.
    destruct (Forall2_elem_of_r _ _ _ _ (partial_matches_filter _ _ _ Hp) Hr)
      as (t & Ht & Htr).
    apply list_elem_of_In, filter_In in Ht as [Ht Hm].
    destruct (entry_matches_result _ _ _ Hm Htr) as [Hne Hci].
    split; [exact Hne | split; [exact Hci|]].
    exists t. split; [now apply list_elem_of_In | exact Htr]. }
  destruct (partial_matches (upper raw) TICKERS) as [partial|e] eqn:Hp.
  - rewrite (search_try_sorted_candidates _ _ _ _ Hp) in Hret.
    injection Hret as <-.
    pose proof (sort_results_perm (upper raw)
                  (exact' (upper raw)
                   ++ take (5 - length (exact' (upper raw))) partial))
      as Hperm.
    split; [|split; [|split]].
    + rewrite (Permutation_length Hperm), length_app, length_take.
      pose proof (exact_result_length TICKER_DICT (upper raw)). lia.
    + intros r Hr. rewrite Hperm in Hr.
      apply elem_of_app in Hr as [Hr|Hr].
      * left. unfold exact_result in Hr.
        destruct (TICKER_DICT !! upper raw) as [nm|];
          [|now apply elem_of_nil in Hr].
        apply list_elem_of_singleton in Hr as ->. now split.
      * right. apply (Hkept partial r eq_refl).
        eapply subseteq_take. exact Hr.
    + intros partial' [= <-]. split; [|split].
      * now apply partial_matches_filter.
      * apply Forall_forall. intros r Hr.
        now destruct (Hkept partial r eq_refl Hr).
      * exact Hperm.
    + intros _. now exists partial.
  - rewrite search_try_candidates, Hp in Hret. cbn [mbind result_bind] in Hret.
    injection Hret as <-.
    split; [simpl; lia | split; [|split]].
    + intros r Hr. now apply elem_of_nil in Hr.
    + intros partial [=].
    + intros Hc. destruct (partial_matches_complete (upper raw) _ Hc)
        as [partial Hp'].
      congruence.
Qed.

End SearchClaims.

(** ** Concrete instances *)

Lemma wide_search :
  search_ticker wide_tickers wide_dict [("query", "a")]
  = Returns (jsonify wide_answer).
Proof. vm_compute. reflexivity. Qed.

Lemma search_at_most_five_matching_witness :
  length wide_answer <= 5
  /\ (forall r, r ∈ wide_answer ->
        (symbol r = "A" /\ wide_dict !! "A" = Some (name r))
        \/ (symbol r <> "A"
            /\ (ci_contains "a" (symbol r) \/ ci_contains "a" (name r))
            /\ exists t, t ∈ wide_tickers /\ result_of_entry t r)).
Proof.
  assert (Hq : md_get_default "query" "" [("query", "a")] <> EmptyString)
    by discriminate.
  destruct (search_at_most_five_matching wide_tickers wide_dict
              [("query", "a")] wide_answer Hq wide_search)
    as (Hlen & Hall & _).
  split; [exact Hlen | exact Hall].
Defined.

Lemma search_results_ranked_witness :
  exists l,
    search_ticker wide_tickers wide_dict [("query", "a")]
    = Returns (jsonify l)
    /\ StronglySorted (ranked_before "A") l.
Proof.
  exact (proj1 (search_results_ranked wide_tickers wide_dict
                  [("query", "a")])).
Defined.

Lemma broken_search_raises :
  search_try broken_tickers ∅ "A" = Raise (KeyError "symbol").
Proof. vm_compute. reflexivity. Qed.

Lemma search_never_raises_witness :
  search_ticker broken_tickers ∅ [("query", "a")] = Returns (jsonify []).
Proof.
  exact (proj1 (proj2 (proj2
           (search_never_raises broken_tickers ∅ [("query", "a")])))
           (KeyError "symbol") broken_search_raises).
Defined.

Lemma numeric_stages_inclusive_bounds_witness :
  lookback_stage [("ticker", "AAPL")] = Ok 365%Z
  /\ lookback_stage [("lookback_days", " 90 ")] = Ok 90%Z
  /\ crossover_stage [("ticker", "AAPL")] = Ok 180%Z
  /\ crossover_stage [("crossover_days", "1_00")] = Ok 100%Z.
Proof.
  destruct numeric_stages_inclusive_bounds
    as (Hl0 & Hl & _ & Hc0 & Hc & _).
  split; [|split; [|split]].
  - exact (Hl0 [("ticker", "AAPL")] eq_refl).
  - apply (proj2 (Hl [("lookback_days", " 90 ")] " 90 " eq_refl) 90%Z);
      [reflexivity | lia].
  - exact (Hc0 [("ticker", "AAPL")] eq_refl).
  - apply (proj2 (Hc [("crossover_days", "1_00")] "1_00" eq_refl) 100%Z);
      [reflexivity | lia].
Defined.

Lemma end_date_stage_format_witness :
  end_date_stage [("end_date", "2024-2-9")] = Ok (Some "2024-2-9")
  /\ end_date_stage [("ticker", "AAPL")] = Ok None.
Proof.
  destruct end_date_stage_format as (Hs & _ & _ & Hnone).
  split.
  - assert (Hne : "2024-2-9" <> EmptyString) by discriminate.
    apply (proj2 (Hs [("end_date", "2024-2-9")] "2024-2-9" eq_refl Hne)
             (2024, 2, 9)%Z).
    vm_compute. reflexivity.
  - apply (Hnone strptime [("ticker", "AAPL")]). left. reflexivity.
Defined.

Lemma empty_numeric_field_is_an_error_witness :
  lookback_stage [("ticker", "AAPL"); ("lookback_days", "")]
  = Raise InvalidLookback
  /\ crossover_stage [("crossover_days", "")] = Raise InvalidCrossover
  /\ end_date_stage [("end_date", "")] = Ok None.
Proof.
  destruct empty_numeric_field_is_an_error as (Hl & Hc & _ & _ & Hd & _).
  split; [|split].
  - exact (Hl [("ticker", "AAPL"); ("lookback_days", "")] eq_refl).
  - exact (Hc [("crossover_days", "")] eq_refl).
  - exact (Hd [("end_date", "")] eq_refl).
Defined.

(** The handler end to end on the sample catalog: a completed analysis,
    and validation failures rendered as the error page with status 500. *)
Example analyze_samples :
  analyze sample_tickers sample_dict unit sample_analysis sample_to_html
    [("ticker", "goog extra tokens")]
  = Returns {| body := "<chart/>"; status := 200;
               content_type := Some "text/html" |}
  /\ analyze sample_tickers sample_dict unit sample_analysis sample_to_html
       [("ticker", "aapl"); ("lookback_days", "29")]
     = Returns (body_with_status
                  (error_html
                     "Error analyzing AAPL: Invalid lookback days value") 500)
  /\ analyze sample_tickers sample_dict unit sample_analysis sample_to_html
       [("ticker", "aapl"); ("end_date", "2024-13-01")]
     = Returns (body_with_status
                  (error_html
                     ("Error analyzing AAPL: "
                      +:+ "Invalid date format. Please use YYYY-MM-DD format"))
                  500)
  /\ analyze sample_tickers sample_dict unit sample_analysis sample_to_html
       [("ticker", "aapl"); ("crossover_days", "")]
     = Returns (body_with_status
                  (error_html
                     "Error analyzing AAPL: Invalid crossover days value") 500)
  /\ analyze sample_tickers sample_dict unit
       (fun _ _ _ _ => Raise (OtherException "No data found"))
       sample_to_html [("ticker", "zzzz")]
     = Returns (body_with_status
                  (error_html
                     "Error analyzing ZZZZ: Analysis failed: No data found")
                  500).
Proof. repeat split; vm_compute; reflexivity. Qed.

(** * Further properties of the code *)

(** ** Resolution, continued *)

Lemma string_app_assoc (a b c : string) : (a +:+ b) +:+ c = a +:+ b +:+ c.
Proof.
  induction a as [|x a IH]; [reflexivity|].
  rewrite !app_cons_string. now rewrite IH.
Qed.

Lemma startswith_refl (s : string) : startswith s s = true.
Proof.
  induction s as [|c s IH]; simpl; [reflexivity|].
  now rewrite Ascii.eqb_refl, IH.
Qed.

Lemma startswith_trans (t s x : string) :
  startswith t s = true -> startswith s x = true -> startswith t x = true.
Proof.
  rewrite !startswith_spec. intros [r1 ->] [r2 ->].
  exists (r2 +:+ r1). apply string_app_assoc.
Qed.

Lemma starts_with_truthy (p s : string) :
  starts_with p s -> truthy p = true -> truthy s = true.
Proof. intros [r ->] Hp. now destruct p. Qed.

(** Whatever the scan collects starts with the input, also on a catalog
    with entries that lack their symbol. *)
Lemma matching_tickers_all_match (ticker_input : string)
  (tickers : list (gmap string string)) :
  forall matching,
    matching_tickers ticker_input tickers = Ok matching ->
    Forall (fun s => startswith s ticker_input = true) matching.
Proof.
  induction tickers as [|t tickers IH]; intros matching H.
  - injection H as <-. constructor.
  - cbn [matching_tickers] in H. unfold getitem in H.
    destruct (t !! "symbol") as [sym|]; [|discriminate].
    cbn [mbind result_bind] in H.
    destruct (startswith sym ticker_input) eqn:Hsym.
    + cbn [mbind result_bind] in H.
      fold (matching_tickers ticker_input tickers) in H.
      destruct (matching_tickers ticker_input tickers) as [tl|e];
        [|discriminate].
      cbn [mbind result_bind] in H. injection H as <-.
      constructor; [exact Hsym | now apply IH].
    + now apply IH.
Qed.

Lemma filter_cons_inv {A : Type} (p : A -> bool) (l : list A) (x : A)
  (rest : list A) :
  List.filter p l = x :: rest ->
  exists before after,
    l = before ++ x :: after
    /\ (forall y, In y before -> p y = false) /\ p x = true.
Proof.
  induction l as [|y l IH]; simpl; [discriminate|].
  destruct (p y) eqn:Hy.
  - intros [= -> _]. exists [], l. split; [reflexivity|].
    split; [intros z [] | exact Hy].
  - intros H. destruct (IH H) as (before & after & -> & Hb & Hx).
    exists (y :: before), after. split; [reflexivity|].
    split; [|exact Hx].
    intros z [<-|Hz]; [exact Hy | now apply Hb].
Qed.

Section ResolveMore.

Variable TICKERS : list (gmap string string).
Variable TICKER_DICT : gmap string string.

Local Abbreviation resolve' := (resolve TICKERS TICKER_DICT).

(** Resolution only ever extends its input: the symbol it answers starts
    with the input, whatever the catalog holds. *)
Theorem resolve_extends_input (ticker_input ticker : string) :
  resolve' ticker_input = Ok ticker -> starts_with ticker_input ticker.
Proof.
  unfold resolve.
  destruct (TICKER_DICT !! ticker_input) as [nm|].
  - intros [= <-]. exists EmptyString. clear.
    induction ticker_input as [|c s IH]; [reflexivity|].
    rewrite app_cons_string. now rewrite <- IH.
  - destruct (matching_tickers ticker_input TICKERS) as [matching|e] eqn:Hm;
      [|discriminate].
    cbn [mbind result_bind]. destruct matching as [|first tl].
    + intros [= <-]. apply startswith_spec, startswith_refl.
    + intros [= <-]. apply startswith_spec.
      pose proof (matching_tickers_all_match _ _ _ Hm) as Hall.
      now inversion Hall.
Qed.

(** Resolution raises nothing but [KeyError] on the key [symbol]. *)
Lemma matching_tickers_raises (ticker_input : string)
  (tickers : list (gmap string string)) (e : exn) :
  matching_tickers ticker_input tickers = Raise e -> e = KeyError "symbol".
Proof.
  induction tickers as [|t tickers IH]; [discriminate|].
  cbn [matching_tickers]. unfold getitem.
  destruct (t !! "symbol") as [sym|]; [|now intros [= <-]].
  cbn [mbind result_bind].
  destruct (startswith sym ticker_input); [|exact IH].
  cbn [mbind result_bind]. fold (matching_tickers ticker_input tickers).
  destruct (matching_tickers ticker_input tickers) as [tl|e'];
    [discriminate|].
  cbn [mbind result_bind]. intros [= <-]. now apply IH.
Qed.

(** Resolving twice is resolving once: a resolved symbol resolves to
    itself. *)
Theorem resolve_idempotent (ticker_input ticker : string) :
  has_symbols TICKERS ->
  resolve' ticker_input = Ok ticker -> resolve' ticker = Ok ticker.
Proof.
  intros Hwf Hres.
  destruct (TICKER_DICT !! ticker) as [nm|] eqn:Hdict;
    [apply resolve_exact; eauto|].
  destruct (TICKER_DICT !! ticker_input) as [nm|] eqn:Hin.
  - rewrite (resolve_exact _ _ _ (mk_is_Some _ _ Hin)) in Hres.
    injection Hres as <-. congruence.
  - rewrite (resolve_scan _ _ _ Hwf Hin) in Hres. injection Hres as Hhd.
    rewrite (resolve_scan _ _ _ Hwf Hdict).
    destruct (List.filter (fun s => startswith s ticker_input)
                (catalog_symbols TICKERS)) as [|first tl] eqn:Hf.
    + cbn [hd] in Hhd. subst ticker.
      now rewrite Hf.
    + cbn [hd] in Hhd. subst first.
      destruct (filter_cons_inv _ _ _ _ Hf)
        as (before & after & Hcat & Hbefore & Hticker).
      rewrite Hcat, filter_first; [reflexivity| |apply startswith_refl].
      intros s Hs. destruct (startswith s ticker) eqn:Hst; [|reflexivity].
      rewrite <- (Hbefore s Hs). symmetry.
      now apply (startswith_trans s ticker ticker_input).
Qed.

End ResolveMore.

Lemma resolve_extends_input_witness : starts_with "GOO" "GOOGL".
Proof.
  apply (resolve_extends_input sample_tickers sample_dict "GOO" "GOOGL").
  vm_compute. reflexivity.
Defined.

Lemma resolve_idempotent_witness :
  resolve sample_tickers sample_dict "GOOGL" = Ok "GOOGL".
Proof.
  apply (resolve_idempotent sample_tickers sample_dict "GOO" "GOOGL"
           sample_tickers_have_symbols).
  vm_compute. reflexivity.
Defined.

(** ** Tokens *)

Lemma isspace_upper_char (c : ascii) : isspace (upper_char c) = isspace c.
Proof. destruct c as [[] [] [] [] [] [] [] []]; vm_compute; reflexivity. Qed.

Lemma in_string_app (c : ascii) (a b : string) :
  In c (list_ascii_of_string (a +:+ b))
  <-> In c (list_ascii_of_string a) \/ In c (list_ascii_of_string b).
Proof.
  induction a as [|x a IH].
  - rewrite app_nil_l_string. simpl. tauto.
  - rewrite app_cons_string. simpl. rewrite IH. tauto.
Qed.

Lemma no_whitespace_upper (s : string) :
  no_whitespace s -> no_whitespace (upper s).
Proof.
  unfold no_whitespace. induction s as [|x s IH]; intros Hs c; simpl;
    [tauto|].
  intros [<-|Hc].
  - rewrite isspace_upper_char. apply Hs. now left.
  - apply IH; [|exact Hc]. intros c' Hc'. apply Hs. now right.
Qed.

(** The tokens [s.split()] answers hold no whitespace. *)
Lemma split_from_no_whitespace (s : string) : forall cur : option string,
  (forall w, cur = Some w -> no_whitespace w) ->
  Forall no_whitespace (split_from cur s).
Proof.
  induction s as [|c s IH]; intros cur Hcur; simpl.
  - destruct cur as [w|]; [|constructor].
    constructor; [now apply Hcur | constructor].
  - destruct (isspace c) eqn:Hc, cur as [w|].
    + constructor; [now apply Hcur|]. apply IH. discriminate.
    + apply IH. discriminate.
    + apply IH. intros w' [= <-] c' Hc'.
      apply in_string_app in Hc' as [Hc'|[<-|[]]];
        [now apply (Hcur w) | exact Hc].
    + apply IH. intros w' [= <-] c' [<-|[]]. exact Hc.
Qed.

Lemma split_head_no_whitespace (s token : string) (rest : list string) :
  split s = token :: rest -> no_whitespace (upper token).
Proof.
  intros Hs. apply no_whitespace_upper.
  assert (Hall : Forall no_whitespace (split s))
    by (apply split_from_no_whitespace; discriminate).
  rewrite Hs in Hall. now inversion Hall.
Qed.

(** ** The analyze handler, continued *)

Lemma end_date_stage_field (form1 form2 : multidict) :
  md_get "end_date" form1 = md_get "end_date" form2 ->
  end_date_stage form1 = end_date_stage form2.
Proof.
  intros H. unfold end_date_stage, end_date_stage_with. now rewrite H.
Qed.

Lemma lookback_stage_field (form1 form2 : multidict) :
  md_get "lookback_days" form1 = md_get "lookback_days" form2 ->
  lookback_stage form1 = lookback_stage form2.
Proof. intros H. now rewrite !lookback_stage_bounded, H. Qed.

Lemma crossover_stage_field (form1 form2 : multidict) :
  md_get "crossover_days" form1 = md_get "crossover_days" form2 ->
  crossover_stage form1 = crossover_stage form2.
Proof. intros H. now rewrite !crossover_stage_bounded, H. Qed.

(** A date the stage lets through is one the parser accepts. *)
Lemma end_date_stage_accepts (form : multidict) (text : string) :
  end_date_stage form = Ok (Some text) ->
  md_get "end_date" form = Some text /\ text <> EmptyString
  /\ exists date, strptime text = Ok date.
Proof.
  unfold end_date_stage, end_date_stage_with.
  destruct (md_get "end_date" form) as [end_date|]; [|discriminate].
  destruct end_date as [|c end_date]; [discriminate|].
  cbn [truthy].
  destruct (strptime (String c end_date)) as [date|e] eqn:Hp.
  - cbn [except_ValueError mbind result_bind]. intros [= <-].
    split; [reflexivity | split; [discriminate | now exists date]].
  - destruct (strptime_raises _ _ Hp) as [msg ->]. discriminate.
Qed.

Section AnalyzeMore.

Variable TICKERS : list (gmap string string).
Variable TICKER_DICT : gmap string string.
Variable figure : Type.
Variable create_combined_analysis :
  string -> option string -> Z -> Z -> result figure.
Variable to_html : figure -> result string.

Local Abbreviation analyze_try' :=
  (analyze_try TICKERS TICKER_DICT figure create_combined_analysis to_html).
Local Abbreviation analyze' :=
  (analyze TICKERS TICKER_DICT figure create_combined_analysis to_html).
Local Abbreviation perform_analysis' :=
  (perform_analysis figure create_combined_analysis to_html).

(** With a token every failure of the body is rendered. *)
Lemma analyze_token_outcome (form : multidict) (token : string)
  (rest : list string) :
  split (md_get_default "ticker" "" form) = token :: rest ->
  analyze' form
  = Returns
      match
        (ticker ← resolve TICKERS TICKER_DICT (upper token);
         end_date ← end_date_stage form;
         lookback_days ← lookback_stage form;
         crossover_days ← crossover_stage form;
         perform_analysis' ticker end_date lookback_days crossover_days)
      with
      | Ok r => r
      | Raise e => error_response (upper token) e
      end.
Proof.
  intros H. unfold analyze. rewrite (analyze_try_token _ _ _ _ _ _ _ _ H).
  now destruct (_ ← resolve TICKERS TICKER_DICT (upper token); _).
Qed.

(** The symbol the handler works with is never empty, is uppercase and
    holds no whitespace. *)
Theorem ticker_input_well_formed (form : multidict) (ticker_input : string) :
  fst (analyze_try' form) = Some ticker_input ->
  truthy ticker_input = true /\ canonical ticker_input
  /\ no_whitespace ticker_input.
Proof.
  destruct (split (md_get_default "ticker" "" form)) as [|token rest] eqn:H.
  - rewrite (analyze_try_no_token _ _ _ _ _ _ H). discriminate.
  - rewrite (analyze_try_token _ _ _ _ _ _ _ _ H). cbn [fst].
    intros [= <-]. split; [|split].
    + exact (split_head_truthy _ _ _ H).
    + apply upper_idem.
    + exact (split_head_no_whitespace _ _ _ H).
Qed.

(** The response depends on the form only through the uppercased first
    token of the ticker and the three other fields: letter case, further
    tokens, other fields and the order of the fields are ignored. *)
Theorem analyze_reads_four_fields (form1 form2 : multidict)
  (token1 token2 : string) (rest1 rest2 : list string) :
  split (md_get_default "ticker" "" form1) = token1 :: rest1 ->
  split (md_get_default "ticker" "" form2) = token2 :: rest2 ->
  upper token1 = upper token2 ->
  md_get "end_date" form1 = md_get "end_date" form2 ->
  md_get "lookback_days" form1 = md_get "lookback_days" form2 ->
  md_get "crossover_days" form1 = md_get "crossover_days" form2 ->
  analyze' form1 = analyze' form2.
Proof.
  intros H1 H2 Htok Hd Hl Hc.
  rewrite (analyze_token_outcome _ _ _ H1), (analyze_token_outcome _ _ _ H2).
  now rewrite Htok, (end_date_stage_field _ _ Hd),
    (lookback_stage_field _ _ Hl), (crossover_stage_field _ _ Hc).
Qed.

End AnalyzeMore.

Lemma ticker_input_well_formed_witness :
  truthy "GOOG" = true /\ canonical "GOOG" /\ no_whitespace "GOOG".
Proof.
  apply (ticker_input_well_formed sample_tickers sample_dict unit
           sample_analysis sample_to_html
           [("ticker", " goog extra tokens")] "GOOG").
  vm_compute. reflexivity.
Defined.

Lemma analyze_reads_four_fields_witness :
  analyze sample_tickers sample_dict unit sample_analysis sample_to_html
    [("ticker", "goog extra tokens"); ("lookback_days", "90")]
  = analyze sample_tickers sample_dict unit sample_analysis sample_to_html
      [("note", "x"); ("lookback_days", "90"); ("ticker", " GooG")].
Proof.
  apply (analyze_reads_four_fields sample_tickers sample_dict unit
           sample_analysis sample_to_html
           [("ticker", "goog extra tokens"); ("lookback_days", "90")]
           [("note", "x"); ("lookback_days", "90"); ("ticker", " GooG")]
           "goog" "GooG" ["extra"; "tokens"] []);
    reflexivity.
Defined.

Lemma resolve_truthy (TICKERS : list (gmap string string))
  (TICKER_DICT : gmap string string) (ticker_input ticker : string) :
  truthy ticker_input = true ->
  resolve TICKERS TICKER_DICT ticker_input = Ok ticker ->
  truthy ticker = true.
Proof.
  intros Hin. unfold resolve.
  destruct (TICKER_DICT !! ticker_input) as [nm|]; [now intros [= <-]|].
  destruct (matching_tickers ticker_input TICKERS) as [matching|e] eqn:Hm;
    [|discriminate].
  cbn [mbind result_bind].
  destruct matching as [|first tl]; intros [= <-]; [exact Hin|].
  pose proof (matching_tickers_all_match _ _ _ Hm) as Hall.
  inversion Hall as [|? ? Hfirst _]; subst.
  apply startswith_spec in Hfirst. exact (starts_with_truthy _ _ Hfirst Hin).
Qed.

(** An entry without its symbol makes every scan for a prefix raise. *)
Lemma matching_tickers_missing_symbol (ticker_input : string)
  (tickers : list (gmap string string)) (t : gmap string string) :
  t ∈ tickers -> t !! "symbol" = None ->
  matching_tickers ticker_input tickers = Raise (KeyError "symbol").
Proof.
  intros Ht Hnone.
  destruct (matching_tickers ticker_input tickers) as [matching|e] eqn:Hm;
    [|now rewrite (matching_tickers_raises _ _ _ Hm)].
  exfalso. revert matching Hm.
  induction Ht as [t tickers|t t' tickers Ht IH]; intros matching.
  - cbn [matching_tickers]. unfold getitem. now rewrite Hnone.
  - cbn [matching_tickers]. unfold getitem.
    destruct (t' !! "symbol") as [sym|]; [|discriminate].
    cbn [mbind result_bind].
    destruct (startswith sym ticker_input); [|apply (IH Hnone)].
    cbn [mbind result_bind]. fold (matching_tickers ticker_input tickers).
    destruct (matching_tickers ticker_input tickers) as [tl|e] eqn:Htl;
      [|discriminate].
    intros _. exact (IH Hnone tl eq_refl).
Qed.

Section AnalyzeStages.

Variable TICKERS : list (gmap string string).
Variable TICKER_DICT : gmap string string.
Variable figure : Type.
Variable create_combined_analysis :
  string -> option string -> Z -> Z -> result figure.
Variable to_html : figure -> result string.

Local Abbreviation analyze' :=
  (analyze TICKERS TICKER_DICT figure create_combined_analysis to_html).
Local Abbreviation resolve' := (resolve TICKERS TICKER_DICT).

(** Validation stops at the first stage that fails, in the order
    resolution, end date, lookback, crossover, and the page reports that
    failure; the later fields and the collaborators play no part. *)
Theorem first_failure_is_reported (form : multidict) (token : string)
  (rest : list string) :
  split (md_get_default "ticker" "" form) = token :: rest ->
  (forall e, resolve' (upper token) = Raise e ->
     analyze' form = Returns (error_response (upper token) e))
  /\ (forall ticker e,
        resolve' (upper token) = Ok ticker ->
        end_date_stage form = Raise e ->
        analyze' form = Returns (error_response (upper token) e))
  /\ (forall ticker end_date e,
        resolve' (upper token) = Ok ticker ->
        end_date_stage form = Ok end_date ->
        lookback_stage form = Raise e ->
        analyze' form = Returns (error_response (upper token) e))
  /\ (forall ticker end_date lookback_days e,
        resolve' (upper token) = Ok ticker ->
        end_date_stage form = Ok end_date ->
        lookback_stage form = Ok lookback_days ->
        crossover_stage form = Raise e ->
        analyze' form = Returns (error_response (upper token) e)).
Proof.
  intros H. rewrite (analyze_token_outcome _ _ _ _ _ _ _ _ H).
  split; [|split; [|split]].
  - intros e ->. reflexivity.
  - intros ticker e -> ->. reflexivity.
  - intros ticker end_date e -> -> ->. reflexivity.
  - intros ticker end_date lookback_days e -> -> -> ->. reflexivity.
Qed.

(** A request that passes validation is answered from the collaborators:
    the analysis is called with the resolved symbol, the end date as
    typed and the two windows; its chart is returned with status 200, and
    a failure of the analysis or of the rendering is reported on the error
    page, under the symbol as typed, as an analysis failure. *)
Theorem validated_request_outcome (form : multidict) (token : string)
  (rest : list string) (ticker : string) (end_date : option string)
  (lookback_days crossover_days : Z) :
  split (md_get_default "ticker" "" form) = token :: rest ->
  resolve' (upper token) = Ok ticker ->
  end_date_stage form = Ok end_date ->
  lookback_stage form = Ok lookback_days ->
  crossover_stage form = Ok crossover_days ->
  analyze' form
  = Returns
      match
        create_combined_analysis ticker end_date lookback_days crossover_days
      with
      | Ok fig =>
          match to_html fig with
          | Ok html_content => chart_response html_content
          | Raise e => error_response (upper token) (AnalysisFailure e)
          end
      | Raise e => error_response (upper token) (AnalysisFailure e)
      end.
Proof.
  intros H Hr Hd Hl Hc.
  rewrite (analyze_token_outcome _ _ _ _ _ _ _ _ H), Hr, Hd, Hl, Hc.
  cbn [mbind result_bind]. unfold perform_analysis.
  destruct (create_combined_analysis _ _ _ _) as [fig|e];
    [|reflexivity].
  cbn [mbind result_bind]. now destruct (to_html fig).
Qed.

(** A response with status 200 is only ever given to a request that passed
    every stage of validation and whose analysis and rendering succeeded;
    its body is the rendered chart and its content type is HTML. *)
Theorem chart_only_for_valid_requests (form : multidict) (r : response) :
  analyze' form = Returns r -> status r = 200%Z ->
  exists token rest ticker end_date lookback_days crossover_days fig,
    split (md_get_default "ticker" "" form) = token :: rest
    /\ resolve' (upper token) = Ok ticker
    /\ end_date_stage form = Ok end_date
    /\ lookback_stage form = Ok lookback_days
    /\ crossover_stage form = Ok crossover_days
    /\ validated_call ticker end_date lookback_days crossover_days
    /\ create_combined_analysis ticker end_date lookback_days crossover_days
       = Ok fig
    /\ to_html fig = Ok (body r)
    /\ content_type r = Some "text/html".
Proof.
  destruct (split (md_get_default "ticker" "" form)) as [|token rest] eqn:H.
  - rewrite (analyze_no_token _ _ _ _ _ _ H). discriminate.
  - rewrite (analyze_token_outcome _ _ _ _ _ _ _ _ H).
    destruct (resolve' (upper token)) as [ticker|e] eqn:Hr;
      [|intros [= <-]; discriminate].
    destruct (end_date_stage form) as [end_date|e] eqn:Hd;
      [|intros [= <-]; discriminate].
    destruct (lookback_stage form) as [lookback_days|e] eqn:Hl;
      [|intros [= <-]; discriminate].
    destruct (crossover_stage form) as [crossover_days|e] eqn:Hc;
      [|intros [= <-]; discriminate].
    cbn [mbind result_bind]. unfold perform_analysis.
    destruct (create_combined_analysis _ _ _ _) as [fig|e] eqn:Hfig;
      [|intros [= <-]; discriminate].
    cbn [mbind result_bind].
    destruct (to_html fig) as [html_content|e] eqn:Hhtml;
      [|intros [= <-]; discriminate].
    intros [= <-] _.
    exists token, rest, ticker, end_date, lookback_days, crossover_days, fig.
    repeat (split; [reflexivity || assumption|]).
    split; [|split; [|split; [exact Hhtml | reflexivity]]]; [|exact Hfig].
    split; [|split; [|split]].
    + exact (resolve_truthy _ _ _ _ (split_head_truthy _ _ _ H) Hr).
    + destruct end_date as [text|]; [right | now left].
      destruct (end_date_stage_accepts _ _ Hd) as (_ & _ & date & Hdate).
      now exists text, date.
    + exact (proj1 (validated_windows_in_range form lookback_days) Hl).
    + exact (proj2 (validated_windows_in_range form crossover_days) Hc).
Qed.

(** With a token the handler answers the chart or the error page. *)
Lemma analyze_token_cases (form : multidict) (token : string)
  (rest : list string) :
  split (md_get_default "ticker" "" form) = token :: rest ->
  (exists html_content, analyze' form = Returns (chart_response html_content))
  \/ (exists e, analyze' form = Returns (error_response (upper token) e)).
Proof.
  intros H. rewrite (analyze_token_outcome _ _ _ _ _ _ _ _ H).
  destruct (resolve' (upper token)) as [ticker|e]; [|right; now exists e].
  destruct (end_date_stage form) as [end_date|e]; [|right; now exists e].
  destruct (lookback_stage form) as [lookback_days|e];
    [|right; now exists e].
  destruct (crossover_stage form) as [crossover_days|e];
    [|right; now exists e].
  cbn [mbind result_bind]. unfold perform_analysis.
  destruct (create_combined_analysis _ _ _ _) as [fig|e];
    [|right; now exists (AnalysisFailure e)].
  cbn [mbind result_bind].
  destruct (to_html fig) as [html_content|e];
    [left; now exists html_content | right; now exists (AnalysisFailure e)].
Qed.

(** The error page carries the symbol as typed, uppercased and otherwise
    unchanged: whatever characters the token holds appear verbatim in the
    HTML of every response with status 500. *)
Theorem error_page_embeds_token (form : multidict) (token : string)
  (rest : list string) (r : response) :
  split (md_get_default "ticker" "" form) = token :: rest ->
  analyze' form = Returns r -> status r = 500%Z ->
  str_in ("Error analyzing " +:+ upper token +:+ ": ") (body r) = true.
Proof.
  intros H Hr Hstatus.
  destruct (analyze_token_cases _ _ _ H) as [[html_content Hc]|[e He]].
  - rewrite Hc in Hr. injection Hr as <-. discriminate Hstatus.
  - rewrite He in Hr. injection Hr as <-. apply str_in_spec.
    exists error_html_head, (exn_str e +:+ error_html_tail).
    unfold error_response, body_with_status, error_html. cbn [body].
    now rewrite !string_app_assoc.
Qed.

End AnalyzeStages.

(** The analysis is only ever called with validated arguments: two
    analyses that agree on every validated call are indistinguishable
    through the handler. *)
Theorem analysis_called_with_validated_arguments
  (TICKERS : list (gmap string string)) (TICKER_DICT : gmap string string)
  (figure : Type)
  (analysis1 analysis2 : string -> option string -> Z -> Z -> result figure)
  (to_html : figure -> result string) (form : multidict) :
  (forall ticker end_date lookback_days crossover_days,
     validated_call ticker end_date lookback_days crossover_days ->
     analysis1 ticker end_date lookback_days crossover_days
     = analysis2 ticker end_date lookback_days crossover_days) ->
  analyze TICKERS TICKER_DICT figure analysis1 to_html form
  = analyze TICKERS TICKER_DICT figure analysis2 to_html form.
Proof.
  intros Hagree.
  destruct (split (md_get_default "ticker" "" form)) as [|token rest] eqn:H.
  - now rewrite !(analyze_no_token _ _ _ _ _ _ H).
  - rewrite !(analyze_token_outcome _ _ _ _ _ _ _ _ H).
    destruct (resolve TICKERS TICKER_DICT (upper token)) as [ticker|e] eqn:Hr;
      [|reflexivity].
    destruct (end_date_stage form) as [end_date|e] eqn:Hd; [|reflexivity].
    destruct (lookback_stage form) as [lookback_days|e] eqn:Hl;
      [|reflexivity].
    destruct (crossover_stage form) as [crossover_days|e] eqn:Hc;
      [|reflexivity].
    cbn [mbind result_bind]. unfold perform_analysis.
    rewrite Hagree; [reflexivity|].
    split; [|split; [|split]].
    + exact (resolve_truthy _ _ _ _ (split_head_truthy _ _ _ H) Hr).
    + destruct end_date as [text|]; [right | now left].
      destruct (end_date_stage_accepts _ _ Hd) as (_ & _ & date & Hdate).
      now exists text, date.
    + exact (proj1 (validated_windows_in_range form lookback_days) Hl).
    + exact (proj2 (validated_windows_in_range form crossover_days) Hc).
Qed.

(** One catalog entry without its symbol breaks the analysis of every
    ticker that is not an exact key: the scan for a prefix raises
    [KeyError] and the page reports it. *)
Theorem analyze_on_entry_without_symbol
  (TICKERS : list (gmap string string)) (TICKER_DICT : gmap string string)
  (figure : Type)
  (create_combined_analysis :
     string -> option string -> Z -> Z -> result figure)
  (to_html : figure -> result string) (form : multidict)
  (token : string) (rest : list string) (t : gmap string string) :
  t ∈ TICKERS -> t !! "symbol" = None ->
  split (md_get_default "ticker" "" form) = token :: rest ->
  TICKER_DICT !! upper token = None ->
  analyze TICKERS TICKER_DICT figure create_combined_analysis to_html form
  = Returns (error_response (upper token) (KeyError "symbol")).
Proof.
  intros Ht Hnone H Hdict.
  rewrite (analyze_token_outcome _ _ _ _ _ _ _ _ H).
  unfold resolve.
  now rewrite Hdict, (matching_tickers_missing_symbol _ _ _ Ht Hnone).
Qed.

Lemma guarded_analysis_agrees (ticker : string) (end_date : option string)
  (lookback_days crossover_days : Z) :
  validated_call ticker end_date lookback_days crossover_days ->
  sample_analysis ticker end_date lookback_days crossover_days
  = guarded_analysis ticker end_date lookback_days crossover_days.
Proof.
  intros (Ht & _ & [Hl1 Hl2] & [Hc1 Hc2]).
  unfold sample_analysis, guarded_analysis. rewrite Ht.
  destruct (Z.leb_spec 30 lookback_days), (Z.leb_spec lookback_days 1825),
    (Z.leb_spec 30 crossover_days), (Z.leb_spec crossover_days 365);
    try lia; reflexivity.
Qed.

Lemma analysis_called_with_validated_arguments_witness :
  analyze sample_tickers sample_dict unit sample_analysis sample_to_html
    [("ticker", "goo"); ("lookback_days", "90")]
  = analyze sample_tickers sample_dict unit guarded_analysis sample_to_html
      [("ticker", "goo"); ("lookback_days", "90")].
Proof.
  exact (analysis_called_with_validated_arguments sample_tickers sample_dict
           unit sample_analysis guarded_analysis sample_to_html
           [("ticker", "goo"); ("lookback_days", "90")]
           guarded_analysis_agrees).
Defined.

Lemma analyze_on_entry_without_symbol_witness :
  analyze broken_tickers sample_dict unit sample_analysis sample_to_html
    [("ticker", "tsla")]
  = Returns (error_response "TSLA" (KeyError "symbol")).
Proof.
  apply (analyze_on_entry_without_symbol broken_tickers sample_dict unit
           sample_analysis sample_to_html [("ticker", "tsla")] "tsla" []
           {[ "name" := "No symbol here" ]}).
  - right. left.
  - vm_compute. reflexivity.
  - reflexivity.
  - vm_compute. reflexivity.
Defined.

Lemma first_failure_is_reported_witness :
  analyze sample_tickers sample_dict unit sample_analysis sample_to_html
    [("ticker", "aapl"); ("crossover_days", "0"); ("lookback_days", "x");
     ("end_date", "yesterday")]
  = Returns (error_response "AAPL" InvalidDateFormat).
Proof.
  apply (proj1 (proj2
           (first_failure_is_reported sample_tickers sample_dict unit
              sample_analysis sample_to_html
              [("ticker", "aapl"); ("crossover_days", "0");
               ("lookback_days", "x"); ("end_date", "yesterday")]
              "aapl" [] eq_refl)) "AAPL" InvalidDateFormat);
    vm_compute; reflexivity.
Defined.

Lemma validated_request_outcome_witness :
  analyze sample_tickers sample_dict unit
    (fun _ _ _ _ => Raise (KeyError "Close")) sample_to_html
    [("ticker", "goo"); ("end_date", "2024-2-9")]
  = Returns
      (error_response "GOO" (AnalysisFailure (KeyError "Close"))).
Proof.
  apply (validated_request_outcome sample_tickers sample_dict unit
           (fun _ _ _ _ => Raise (KeyError "Close")) sample_to_html
           [("ticker", "goo"); ("end_date", "2024-2-9")]
           "goo" [] "GOOGL" (Some "2024-2-9") 365%Z 180%Z);
    vm_compute; reflexivity.
Defined.

Lemma sample_chart :
  analyze sample_tickers sample_dict unit sample_analysis sample_to_html
    [("ticker", "goo")]
  = Returns (chart_response "<chart/>").
Proof. vm_compute. reflexivity. Qed.

Lemma chart_only_for_valid_requests_witness :
  exists token rest ticker end_date lookback_days crossover_days fig,
    split (md_get_default "ticker" "" [("ticker", "goo")]) = token :: rest
    /\ resolve sample_tickers sample_dict (upper token) = Ok ticker
    /\ end_date_stage [("ticker", "goo")] = Ok end_date
    /\ lookback_stage [("ticker", "goo")] = Ok lookback_days
    /\ crossover_stage [("ticker", "goo")] = Ok crossover_days
    /\ validated_call ticker end_date lookback_days crossover_days
    /\ sample_analysis ticker end_date lookback_days crossover_days = Ok fig
    /\ sample_to_html fig = Ok "<chart/>"
    /\ Some "text/html" = Some "text/html".
Proof.
  exact (chart_only_for_valid_requests sample_tickers sample_dict unit
           sample_analysis sample_to_html [("ticker", "goo")]
           (chart_response "<chart/>") sample_chart eq_refl).
Defined.

Lemma sample_error_page :
  analyze sample_tickers sample_dict unit sample_analysis sample_to_html
    [("ticker", "<b>x</b> y"); ("lookback_days", "1")]
  = Returns (error_response "<B>X</B>" InvalidLookback).
Proof. vm_compute. reflexivity. Qed.

Lemma error_page_embeds_token_witness :
  str_in ("Error analyzing " +:+ upper "<b>x</b>" +:+ ": ")
    (body (error_response "<B>X</B>" InvalidLookback)) = true.
Proof.
  exact (error_page_embeds_token sample_tickers sample_dict unit
           sample_analysis sample_to_html
           [("ticker", "<b>x</b> y"); ("lookback_days", "1")]
           "<b>x</b>" ["y"] (error_response "<B>X</B>" InvalidLookback)
           eq_refl sample_error_page eq_refl).
Defined.

(** ** Search, continued *)

Lemma entry_matches_symbol (query : string) (t : gmap string string)
  (r : SearchResult) :
  entry_matches query t = true -> result_of_entry t r -> symbol r <> query.
Proof.
  unfold entry_matches, result_of_entry. intros Hm (Hsym & _ & _).
  rewrite Hsym in Hm. apply andb_true_iff in Hm as [Hne _].
  apply negb_true_iff in Hne. now apply String.eqb_neq.
Qed.

(** No partial match bears the symbol of the query. *)
Lemma partial_matches_symbols (query : string)
  (tickers : list (gmap string string)) (partial : list SearchResult) :
  partial_matches query tickers = Ok partial ->
  Forall (fun r => symbol r <> query) partial.
Proof.
  intros Hp. apply Forall_forall. intros r Hr.
  destruct (Forall2_elem_of_r _ _ _ _ (partial_matches_filter _ _ _ Hp) Hr)
    as (t & Ht & Htr).
  apply list_elem_of_In, filter_In in Ht as [_ Hm].
  exact (entry_matches_symbol _ _ _ Hm Htr).
Qed.

(** An entry without its symbol makes the scan raise, wherever it stands
    in the catalog. *)
Lemma partial_matches_missing_symbol (query : string)
  (tickers : list (gmap string string)) (t : gmap string string) :
  t ∈ tickers -> t !! "symbol" = None ->
  exists e, partial_matches query tickers = Raise e.
Proof.
  intros Ht Hnone. induction Ht as [t tickers|t t' tickers Ht IH].
  - cbn [partial_matches]. unfold partial_cond, getitem. rewrite Hnone.
    now exists (KeyError "symbol").
  - destruct (IH Hnone) as [e He]. cbn [partial_matches].
    destruct (partial_cond query t') as [keep|e']; [|now exists e'].
    cbn [mbind result_bind]. destruct keep; [|now exists e].
    destruct (getitem t' "symbol") as [sym|e']; [|now exists e'].
    cbn [mbind result_bind].
    destruct (getitem t' "name") as [nm|e']; [|now exists e'].
    cbn [mbind result_bind]. rewrite He. now exists e.
Qed.

(** The match of the query sorts before anything that does not bear its
    symbol. *)
Lemma insert_exact_first (query : string) (x : SearchResult)
  (l : list SearchResult) :
  symbol x = query -> Forall (fun r => symbol r <> query) l ->
  insert_by_key query x l = x :: l.
Proof.
  intros Hx Hl. destruct l as [|y l]; [reflexivity|].
  cbn [insert_by_key]. unfold key_leb, sort_key.
  inversion Hl as [|? ? Hy _]; subst.
  rewrite String.eqb_refl.
  apply String.eqb_neq in Hy. rewrite Hy. reflexivity.
Qed.

Lemma sample_entry_complete (sym nm : string) :
  is_Some (sample_entry sym nm !! "symbol")
  /\ is_Some (sample_entry sym nm !! "name").
Proof. split; eexists; vm_compute; reflexivity. Qed.

Lemma wide_tickers_complete : complete_entries wide_tickers.
Proof. repeat constructor; apply sample_entry_complete. Qed.

Section SearchMore.

Variable TICKERS : list (gmap string string).
Variable TICKER_DICT : gmap string string.

Local Abbreviation search_ticker' := (search_ticker TICKERS TICKER_DICT).
Local Abbreviation exact' := (exact_result TICKER_DICT).

(** One catalog entry without its symbol silences search: every query is
    answered with the empty list. *)
Theorem search_on_entry_without_symbol (t : gmap string string)
  (args : multidict) :
  t ∈ TICKERS -> t !! "symbol" = None ->
  search_ticker' args = Returns (jsonify []).
Proof.
  intros Ht Hnone. rewrite search_ticker_cases.
  destruct (truthy _); [|reflexivity].
  rewrite search_try_candidates.
  destruct (partial_matches_missing_symbol
              (upper (md_get_default "query" "" args)) _ _ Ht Hnone)
    as [e ->].
  reflexivity.
Qed.

(** When the query is a key of [TICKER_DICT] and the scan completes, the
    first result is that entry, and no other result bears its symbol. *)
Theorem exact_match_comes_first (args : multidict) (nm : string)
  (partial : list SearchResult) :
  md_get_default "query" "" args <> EmptyString ->
  TICKER_DICT !! upper (md_get_default "query" "" args) = Some nm ->
  partial_matches (upper (md_get_default "query" "" args)) TICKERS
  = Ok partial ->
  exists others,
    search_ticker' args
    = Returns
        (jsonify
           (mk_result (upper (md_get_default "query" "" args)) nm
              "predefined" :: others))
    /\ Forall
         (fun r => symbol r <> upper (md_get_default "query" "" args))
         others.
Proof.
  set (raw := md_get_default "query" "" args).
  intros Hraw Hdict Hp.
  assert (Htruthy : truthy (upper raw) = true).
  { rewrite truthy_upper. destruct raw; [congruence | reflexivity]. }
  rewrite search_ticker_cases. fold raw. rewrite Htruthy.
  rewrite (search_try_sorted_candidates _ _ _ _ Hp).
  unfold exact_result. rewrite Hdict. cbn [app length sort_results].
  assert (Hothers : Forall (fun r => symbol r <> upper raw)
                      (sort_results (upper raw) (take (5 - 1) partial))).
  { rewrite sort_results_perm. apply Forall_take.
    exact (partial_matches_symbols _ _ _ Hp). }
  eexists. split; [|exact Hothers].
  now rewrite (insert_exact_first (upper raw)
                 (mk_result (upper raw) nm "predefined") _ eq_refl Hothers).
Qed.

(** On a catalog whose entries all carry a symbol and a name, a non-empty
    query is answered with as many results as there are candidates, the
    exact match and the entries that match partially, but five at most. *)
Theorem search_result_count (args : multidict) (l : list SearchResult) :
  complete_entries TICKERS ->
  md_get_default "query" "" args <> EmptyString ->
  search_ticker' args = Returns (jsonify l) ->
  length l
  = Nat.min 5
      (length (exact' (upper (md_get_default "query" "" args)))
       + length
           (List.filter
              (entry_matches (upper (md_get_default "query" "" args)))
              TICKERS)).
Proof.
  set (raw := md_get_default "query" "" args).
  intros Hc Hraw Hret.
  assert (Htruthy : truthy (upper raw) = true).
  { rewrite truthy_upper. destruct raw; [congruence | reflexivity]. }
  destruct (partial_matches_complete (upper raw) _ Hc) as [partial Hp].
  rewrite search_ticker_cases in Hret. fold raw in Hret.
  rewrite Htruthy, (search_try_sorted_candidates _ _ _ _ Hp) in Hret.
  injection Hret as <-.
  rewrite (Permutation_length (sort_results_perm _ _)), length_app,
    length_take.
  rewrite (Forall2_length _ _ _ (partial_matches_filter _ _ _ Hp)).
  pose proof (exact_result_length TICKER_DICT (upper raw)). lia.
Qed.

End SearchMore.

Lemma search_on_entry_without_symbol_witness :
  search_ticker broken_tickers sample_dict [("query", "aapl")]
  = Returns (jsonify []).
Proof.
  apply (search_on_entry_without_symbol broken_tickers sample_dict
           {[ "name" := "No symbol here" ]} [("query", "aapl")]).
  - right. left.
  - vm_compute. reflexivity.
Defined.

Lemma exact_match_comes_first_witness :
  exists others,
    search_ticker wide_tickers wide_dict [("query", "aa")]
    = Returns
        (jsonify (mk_result "AA" "Alcoa Corporation" "predefined" :: others))
    /\ Forall (fun r => symbol r <> "AA") others.
Proof.
  assert (Hq : md_get_default "query" "" [("query", "aa")] <> EmptyString)
    by discriminate.
  apply (exact_match_comes_first wide_tickers wide_dict [("query", "aa")]
           "Alcoa Corporation"
           [mk_result "AAPL" "Apple Inc." "predefined";
            mk_result "AAL" "American Airlines Group" "predefined"] Hq);
    vm_compute; reflexivity.
Defined.

Lemma search_result_count_witness : length wide_answer = 5.
Proof.
  assert (Hq : md_get_default "query" "" [("query", "a")] <> EmptyString)
    by discriminate.
  exact (search_result_count wide_tickers wide_dict [("query", "a")]
           wide_answer wide_tickers_complete Hq wide_search).
Defined.

(** ** Dates *)

Lemma re_char_bounds (lo hi : nat) (s r : string) (v : Z) :
  re_char lo hi s = Some (v, r) -> (48 <= lo)%nat ->
  (Z.of_nat lo - 48 <= v <= Z.of_nat hi - 48)%Z.
Proof.
  unfold re_char, in_range, digit_val. destruct s as [|c s]; [discriminate|].
  destruct (Nat.leb_spec lo (code c)), (Nat.leb_spec (code c) hi);
    cbn [andb]; try discriminate.
  intros [= <- _] Hlo. lia.
Qed.

Lemma re_one_bounds (lo hi : nat) (s r : string) (v : Z) :
  In (v, r) (re_one lo hi s) -> (48 <= lo)%nat ->
  (Z.of_nat lo - 48 <= v <= Z.of_nat hi - 48)%Z.
Proof.
  unfold re_one. destruct (re_char lo hi s) as [[v' r']|] eqn:H;
    [|intros []].
  intros [[= <- <-]|[]]. now apply (re_char_bounds lo hi s r').
Qed.

Lemma re_two_bounds (lo1 hi1 lo2 hi2 : nat) (s r : string) (v : Z) :
  In (v, r) (re_two lo1 hi1 lo2 hi2 s) -> (48 <= lo1)%nat ->
  (48 <= lo2)%nat ->
  (10 * (Z.of_nat lo1 - 48) + (Z.of_nat lo2 - 48) <= v
   <= 10 * (Z.of_nat hi1 - 48) + (Z.of_nat hi2 - 48))%Z.
Proof.
  unfold re_two. destruct (re_char lo1 hi1 s) as [[a s1]|] eqn:H1;
    [|intros []].
  destruct (re_char lo2 hi2 s1) as [[b s2]|] eqn:H2; [|intros []].
  intros [[= <- <-]|[]] Hlo1 Hlo2.
  pose proof (re_char_bounds _ _ _ _ _ H1 Hlo1).
  pose proof (re_char_bounds _ _ _ _ _ H2 Hlo2). lia.
Qed.

Lemma re_m_bounds (s r : string) (v : Z) :
  In (v, r) (re_m s) -> (1 <= v <= 12)%Z.
Proof.
  unfold re_m. intros H.
  apply in_app_or in H as [H|H]; [|apply in_app_or in H as [H|H]].
  - apply re_two_bounds in H; lia.
  - apply re_two_bounds in H; lia.
  - apply re_one_bounds in H; lia.
Qed.

Lemma re_d_bounds (s r : string) (v : Z) :
  In (v, r) (re_d s) -> (1 <= v <= 31)%Z.
Proof.
  unfold re_d. intros H.
  apply in_app_or in H as [H|H];
    [|apply in_app_or in H as [H|H];
      [|apply in_app_or in H as [H|H]; [|apply in_app_or in H as [H|H]]]].
  - apply re_two_bounds in H; lia.
  - apply re_two_bounds in H; lia.
  - apply re_two_bounds in H; lia.
  - apply re_one_bounds in H; lia.
  - unfold re_space_one in H. destruct s as [|c s]; [destruct H|].
    destruct (Ascii.eqb_spec c " ") as [->|Hc].
    + apply re_one_bounds in H; lia.
    + destruct c as [[] [] [] [] [] [] [] []]; try destruct H.
      now contradiction Hc.
Qed.

Lemma re_Y_bounds (s r : string) (y : Z) :
  re_Y s = Some (y, r) -> (0 <= y <= 9999)%Z.
Proof.
  unfold re_Y.
  destruct (re_char 48 57 s) as [[a s1]|] eqn:H1; [|discriminate].
  destruct (re_char 48 57 s1) as [[b s2]|] eqn:H2; [|discriminate].
  destruct (re_char 48 57 s2) as [[c s3]|] eqn:H3; [|discriminate].
  destruct (re_char 48 57 s3) as [[d s4]|] eqn:H4; [|discriminate].
  intros [= <- _].
  apply re_char_bounds in H1, H2, H3, H4; lia.
Qed.

Lemma re_after_month_bounds (y : Z) (ms : list (Z * string)) (y' m d : Z)
  (rest : string) :
  (forall v r, In (v, r) ms -> (1 <= v <= 12)%Z) ->
  re_after_month y ms = Some (y', m, d, rest) ->
  y' = y /\ (1 <= m <= 12)%Z /\ (1 <= d <= 31)%Z.
Proof.
  induction ms as [|[m0 s3] ms IH]; intros Hms; [discriminate|].
  cbn [re_after_month].
  assert (Htl : forall v r, In (v, r) ms -> (1 <= v <= 12)%Z)
    by (intros v r Hv; apply (Hms v r); now right).
  destruct (re_lit "-" s3) as [s4|]; [|now apply IH].
  destruct (re_d s4) as [|[d0 rest0] ds] eqn:Hd; [now apply IH|].
  intros [= <- <- <- <-]. split; [reflexivity|]. split.
  - apply (Hms m0 s3). now left.
  - apply (re_d_bounds s4 rest0). rewrite Hd. now left.
Qed.

(** What the parser accepts is a date of the calendar. *)
Lemma strptime_calendar (s : string) (y m d : Z) :
  strptime s = Ok (y, m, d) ->
  (1 <= y <= 9999)%Z /\ (1 <= m <= 12)%Z
  /\ (1 <= d <= days_in_month y m)%Z.
Proof.
  unfold strptime.
  destruct (re_match s) as [[[[y0 m0] d0] rest]|] eqn:Hm; [|discriminate].
  destruct (truthy rest); [discriminate|].
  destruct (Z.ltb_spec y0 1); [discriminate|].
  destruct (Z.ltb_spec (days_in_month y0 m0) d0); [discriminate|].
  intros [= <- <- <-].
  unfold re_match in Hm.
  destruct (re_Y s) as [[y1 s1]|] eqn:HY; [|discriminate].
  destruct (re_lit "-" s1) as [s2|]; [|discriminate].
  apply re_after_month_bounds in Hm as (-> & Hmonth & Hday);
    [|intros v r; apply re_m_bounds].
  apply re_Y_bounds in HY. lia.
Qed.

(** An end date that passes validation is a date of the calendar, written
    as the parser reads it. *)
Theorem validated_end_date_is_calendar_date (form : multidict)
  (text : string) :
  end_date_stage form = Ok (Some text) ->
  exists y m d,
    strptime text = Ok (y, m, d)
    /\ (1 <= y <= 9999)%Z /\ (1 <= m <= 12)%Z
    /\ (1 <= d <= days_in_month y m)%Z.
Proof.
  intros H.
  destruct (end_date_stage_accepts _ _ H) as (_ & _ & [[y m] d] & Hdate).
  exists y, m, d. split; [exact Hdate | exact (strptime_calendar _ _ _ _ Hdate)].
Qed.

Lemma validated_end_date_is_calendar_date_witness :
  exists y m d,
    strptime "2024-2-29" = Ok (y, m, d)
    /\ (1 <= y <= 9999)%Z /\ (1 <= m <= 12)%Z
    /\ (1 <= d <= days_in_month y m)%Z.
Proof.
  apply (validated_end_date_is_calendar_date
           [("ticker", "aapl"); ("end_date", "2024-2-29")] "2024-2-29").
  vm_compute. reflexivity.
Defined.

(** ** The index page *)

(** Case analysis on an integer known to lie between two literals. *)
Ltac cases_in_range z :=
  lazymatch goal with
  | H : (?lo <= z <= ?hi)%Z |- _ =>
      destruct (Z.eq_dec z lo) as [->|?];
      [ clear H
      | let lo' := eval compute in (lo + 1)%Z in
        first
          [ exfalso; lia
          | assert (lo' <= z <= hi)%Z by lia; clear H; cases_in_range z ] ]
  end.

Lemma re_char_digit (n : Z) (s : string) :
  (0 <= n <= 9)%Z -> re_char 48 57 (String (digit_char n) s) = Some (n, s).
Proof. intros H. cases_in_range n; reflexivity. Qed.

Lemma re_Y_pad4 (y : Z) (s : string) :
  (1000 <= y <= 9999)%Z -> re_Y (pad4 y +:+ s) = Some (y, s).
Proof.
  intros Hy. unfold pad4, pad2, re_Y. rewrite !app_cons_string.
  rewrite app_nil_l_string.
  rewrite !re_char_digit by (Z.div_mod_to_equations; lia).
  do 2 f_equal. Z.div_mod_to_equations. lia.
Qed.

Lemma days_in_month_le_31 (y m : Z) : (days_in_month y m <= 31)%Z.
Proof.
  unfold days_in_month.
  destruct (m =? 2)%Z; [destruct (is_leap y); lia|].
  destruct ((m =? 4) || (m =? 6) || (m =? 9) || (m =? 11))%Z; lia.
Qed.

Lemma month_day_match (y m d : Z) :
  (1 <= m <= 12)%Z -> (1 <= d <= 31)%Z ->
  re_after_month y (re_m (pad2 m +:+ "-" +:+ pad2 d)) = Some (y, m, d, "").
Proof.
  intros Hm Hd. cases_in_range m; cases_in_range d; vm_compute; reflexivity.
Qed.

(** Formatting a date and parsing the text gives the date back. *)
Lemma strptime_strftime (now : datetime) :
  calendar_date now ->
  strptime (strftime now) = Ok (dt_year now, dt_month now, dt_day now).
Proof.
  intros (Hy & Hm & Hd).
  pose proof (days_in_month_le_31 (dt_year now) (dt_month now)) as H31.
  unfold strptime, re_match, strftime.
  rewrite (re_Y_pad4 _ _ Hy). rewrite app_cons_string, app_nil_l_string.
  cbn [re_lit]. rewrite Ascii.eqb_refl.
  rewrite month_day_match by lia. cbn [truthy].
  destruct (Z.ltb_spec (dt_year now) 1); [lia|].
  destruct (Z.ltb_spec (days_in_month (dt_year now) (dt_month now))
              (dt_day now)); [lia | reflexivity].
Qed.

(** The date [index] hands to its template as [max_date] is the first
    reading of the clock, written so that the end-date stage of [analyze]
    accepts it and the parser reads the same day back. *)
Theorem index_max_date_is_accepted (now1 : datetime) :
  calendar_date now1 ->
  exists today,
    (forall (page : Type)
            (render_template : string -> datetime -> string -> result page)
            (now2 : datetime),
       index page render_template now1 now2
       = run (render_template "index.html" now2 today))
    /\ strptime today = Ok (dt_year now1, dt_month now1, dt_day now1)
    /\ (forall form,
          md_get "end_date" form = Some today ->
          end_date_stage form = Ok (Some today)).
Proof.
  intros Hdate. exists (strftime now1). split; [|split].
  - reflexivity.
  - exact (strptime_strftime _ Hdate).
  - intros form Hget. unfold end_date_stage.
    rewrite (end_date_stage_supplied strptime form (strftime now1) Hget).
    + now rewrite (strptime_strftime _ Hdate).
    + unfold strftime, pad4. rewrite app_cons_string. discriminate.
Qed.

Lemma sample_now_calendar : calendar_date sample_now.
Proof. vm_compute. repeat split; discriminate. Qed.

Lemma index_max_date_is_accepted_witness :
  exists today,
    (forall (page : Type)
            (render_template : string -> datetime -> string -> result page)
            (now2 : datetime),
       index page render_template sample_now now2
       = run (render_template "index.html" now2 today))
    /\ strptime today = Ok (2026, 11, 3)%Z
    /\ (forall form,
          md_get "end_date" form = Some today ->
          end_date_stage form = Ok (Some today)).
Proof. exact (index_max_date_is_accepted sample_now sample_now_calendar). Defined.

(** ** Distinct results and default windows *)

Lemma catalog_symbols_filter (p : gmap string string -> bool)
  (tickers : list (gmap string string)) :
  catalog_symbols (List.filter p tickers) `sublist_of` catalog_symbols tickers.
Proof.
  unfold catalog_symbols. induction tickers as [|t tickers IH];
    [constructor|].
  cbn [List.filter]. destruct (p t); cbn [omap list_omap].
  - destruct (t !! "symbol"); [now apply sublist_skip | exact IH].
  - destruct (t !! "symbol"); [now apply sublist_cons | exact IH].
Qed.

Lemma result_symbols (ts : list (gmap string string))
  (partial : list SearchResult) :
  Forall2 result_of_entry ts partial ->
  map symbol partial = catalog_symbols ts.
Proof.
  unfold catalog_symbols.
  induction 1 as [|t r ts partial (Hsym & _ & _) _ IH]; [reflexivity|].
  cbn [map omap list_omap]. now rewrite Hsym, IH.
Qed.

(** On a catalog that lists no symbol twice, no two results of a search
    bear the same symbol. *)
Theorem search_results_distinct (TICKERS : list (gmap string string))
  (TICKER_DICT : gmap string string) (args : multidict)
  (l : list SearchResult) :
  NoDup (catalog_symbols TICKERS) ->
  search_ticker TICKERS TICKER_DICT args = Returns (jsonify l) ->
  NoDup (map symbol l).
Proof.
  intros Hcat. rewrite search_ticker_cases.
  destruct (truthy _); [|intros [= <-]; constructor].
  destruct (partial_matches (upper (md_get_default "query" "" args)) TICKERS)
    as [partial|e] eqn:Hp.
  - rewrite (search_try_sorted_candidates _ _ _ _ Hp). intros [= <-].
    rewrite (Permutation_map symbol (sort_results_perm _ _)), map_app.
    apply NoDup_app. split; [|split].
    + unfold exact_result. destruct (TICKER_DICT !! _); cbn [map];
        [apply NoDup_singleton | constructor].
    + intros s Hs. unfold exact_result in Hs.
      destruct (TICKER_DICT !! _) as [nm|]; cbn [map symbol] in Hs;
        [|now apply elem_of_nil in Hs].
      apply list_elem_of_singleton in Hs as ->.
      intros Hin. apply list_elem_of_In, in_map_iff in Hin as (r & Hr & Hin).
      apply list_elem_of_In in Hin.
      pose proof (partial_matches_symbols _ _ _ Hp) as Hne.
      rewrite Forall_forall in Hne. apply (Hne r); [|exact Hr].
      eapply subseteq_take. exact Hin.
    + rewrite <- firstn_map.
      apply (sublist_NoDup _ (map symbol partial)); [|apply sublist_take].
      rewrite (result_symbols _ _ (partial_matches_filter _ _ _ Hp)).
      exact (sublist_NoDup _ _ Hcat (catalog_symbols_filter _ _)).
  - rewrite search_try_candidates, Hp. intros [= <-]. constructor.
Qed.

Lemma wide_symbols_distinct : NoDup (catalog_symbols wide_tickers).
Proof.
  replace (catalog_symbols wide_tickers)
    with ["AAPL"; "MSFT"; "AA"; "AAL"; "GOOGL"; "A"; "AMZN"]
    by (vm_compute; reflexivity).
  repeat (apply NoDup_cons_2;
          [intros H;
           repeat (apply elem_of_cons in H as [H|H]; [discriminate|]);
           now apply elem_of_nil in H|]).
  apply NoDup_nil_2.
Qed.

Lemma search_results_distinct_witness : NoDup (map symbol wide_answer).
Proof.
  exact (search_results_distinct wide_tickers wide_dict [("query", "a")]
           wide_answer wide_symbols_distinct wide_search).
Defined.

(** A request that carries a ticker and none of the other three fields is
    analysed up to the current date over 365 days with a crossover window
    of 180 days. *)
Theorem analyze_defaults (TICKERS : list (gmap string string))
  (TICKER_DICT : gmap string string) (figure : Type)
  (create_combined_analysis :
     string -> option string -> Z -> Z -> result figure)
  (to_html : figure -> result string) (form : multidict)
  (token : string) (rest : list string) (ticker : string) :
  split (md_get_default "ticker" "" form) = token :: rest ->
  resolve TICKERS TICKER_DICT (upper token) = Ok ticker ->
  md_get "end_date" form = None ->
  md_get "lookback_days" form = None ->
  md_get "crossover_days" form = None ->
  analyze TICKERS TICKER_DICT figure create_combined_analysis to_html form
  = Returns
      match create_combined_analysis ticker None 365%Z 180%Z with
      | Ok fig =>
          match to_html fig with
          | Ok html_content => chart_response html_content
          | Raise e => error_response (upper token) (AnalysisFailure e)
          end
      | Raise e => error_response (upper token) (AnalysisFailure e)
      end.
Proof.
  intros H Hr Hd Hl Hc.
  rewrite (analyze_token_outcome _ _ _ _ _ _ _ _ H), Hr.
  rewrite lookback_stage_bounded, crossover_stage_bounded, Hl, Hc.
  unfold end_date_stage, end_date_stage_with. rewrite Hd.
  cbn [bounded_int mbind result_bind]. unfold perform_analysis.
  destruct (create_combined_analysis _ _ _ _) as [fig|e]; [|reflexivity].
  cbn [mbind result_bind]. now destruct (to_html fig).
Qed.

Lemma analyze_defaults_witness :
  analyze sample_tickers sample_dict unit
    (fun ticker end_date lookback_days crossover_days =>
       if (String.eqb ticker "GOOGL" && (lookback_days =? 365)
           && (crossover_days =? 180))%Z
       then Ok tt else Raise (OtherException "other arguments"))
    sample_to_html [("ticker", "goo extra tokens")]
  = Returns (chart_response "<chart/>").
Proof.
  apply (analyze_defaults sample_tickers sample_dict unit
           (fun ticker end_date lookback_days crossover_days =>
              if (String.eqb ticker "GOOGL" && (lookback_days =? 365)
                  && (crossover_days =? 180))%Z
              then Ok tt else Raise (OtherException "other arguments"))
           sample_to_html [("ticker", "goo extra tokens")]
           "goo" ["extra"; "tokens"] "GOOGL");
    vm_compute; reflexivity.
Defined.
